(** * PayFlowAI reconciliation service: a shallow embedding and its properties

    The development follows the sources of [services/reconciliation]:
    - [app/config.py]                        -> [Module Config]
    - [app/models/reconciliation_models.py]  -> [Module Models]
    - [app/processors/fuzzy_matcher.py]      -> [Module FuzzyMatcher]
    - [app/processors/statement_parser.py]   -> [Module StatementParser]
    - [app/reconciliation_engine.py]         -> [Module ReconciliationEngine]

    Conventions of the embedding.
    - Python numbers carry their run-time type ([Py.pynum]): the scorer mixes
      [decimal.Decimal] and [float] operands, and Python accepts such a mix in
      a comparison but raises [TypeError] in arithmetic.  Values are exact
      rationals: binary rounding of floats and the 28-digit context of
      Decimal are not modelled.
    - Exceptions are values of [Py.result]; a [try/except] becomes a match.
    - Texts are byte strings; case mapping and character classes are the
      ASCII ones.
    - Libraries the service only calls (fuzzywuzzy, difflib, the regex
      searches for reference tokens, pandas, ofxparse, the HTTP client, the
      discrepancy detector, the clock) are record parameters. *)

From Stdlib Require Import QArith ZArith String Ascii List Bool Lia Lqa.
From Stdlib Require Import Qabs DecimalString.
Import ListNotations.

Set Implicit Arguments.

(* ================================================================== *)
(** * Python values and exceptions *)
(* ================================================================== *)

Module Py.

Local Open Scope string_scope.

(** Exceptions, with the text [str(e)] gives. *)
Inductive exn : Type :=
| TypeError (msg : string)
| ValueError (msg : string)
| KeyError (key : string)
| ZeroDivisionError (msg : string)
| UnicodeDecodeError (msg : string)
| LibraryError (msg : string).   (* raised inside an external library *)

Definition exn_str (e : exn) : string :=
  match e with
  | TypeError m | ValueError m | ZeroDivisionError m
  | UnicodeDecodeError m | LibraryError m => m
  | KeyError k => "'" ++ k ++ "'"
  end.

Inductive result (A : Type) : Type :=
| Ok (a : A)
| Raise (e : exn).
Arguments Ok {A} a.
Arguments Raise {A} e.

Definition bind {A B} (r : result A) (k : A -> result B) : result B :=
  match r with
  | Ok a => k a
  | Raise e => Raise e
  end.

Definition is_ok {A} (r : result A) : bool :=
  match r with Ok _ => true | Raise _ => false end.

Declare Scope py_scope.
Delimit Scope py_scope with py.
Notation "x <- r ;; k" := (bind r (fun x => k))
  (at level 61, r at next level, right associativity) : py_scope.

(** ** Numbers *)

Inductive pynum : Type :=
| PyDecimal (q : Q)
| PyFloat (q : Q).

Definition num_value (a : pynum) : Q :=
  match a with PyDecimal q | PyFloat q => q end.

Definition type_name (a : pynum) : string :=
  match a with PyDecimal _ => "decimal.Decimal" | PyFloat _ => "float" end.

Definition unsupported (op : string) (a b : pynum) : exn :=
  TypeError ("unsupported operand type(s) for " ++ op ++ ": '"
             ++ type_name a ++ "' and '" ++ type_name b ++ "'").

(** Arithmetic is defined inside one type only. *)
Definition py_binop (op : string) (f : Q -> Q -> Q) (a b : pynum) : result pynum :=
  match a, b with
  | PyDecimal x, PyDecimal y => Ok (PyDecimal (f x y))
  | PyFloat x, PyFloat y => Ok (PyFloat (f x y))
  | _, _ => Raise (unsupported op a b)
  end.

Definition py_add := py_binop "+" Qplus.
Definition py_sub := py_binop "-" Qminus.
Definition py_mul := py_binop "*" Qmult.

Definition py_div (a b : pynum) : result pynum :=
  match a, b with
  | PyDecimal x, PyDecimal y
  | PyFloat x, PyFloat y =>
      if Qeq_bool y 0 then Raise (ZeroDivisionError "division by zero")
      else py_binop "/" Qdiv a b
  | _, _ => Raise (unsupported "/" a b)
  end.

Definition py_abs (a : pynum) : pynum :=
  match a with
  | PyDecimal q => PyDecimal (Qabs q)
  | PyFloat q => PyFloat (Qabs q)
  end.

(** Comparisons convert exactly and never raise. *)
Definition py_eqb (a b : pynum) : bool := Qeq_bool (num_value a) (num_value b).
Definition py_leb (a b : pynum) : bool := Qle_bool (num_value a) (num_value b).
Definition py_ltb (a b : pynum) : bool := negb (Qle_bool (num_value b) (num_value a)).
Definition py_geb (a b : pynum) : bool := py_leb b a.
Definition py_gtb (a b : pynum) : bool := py_ltb b a.

(** [min(a, b)] and [max(a, b)] return one of their arguments, the first
    one on a tie. *)
Definition py_min (a b : pynum) : pynum := if py_ltb b a then b else a.
Definition py_max (a b : pynum) : pynum := if py_gtb b a then b else a.

(** The same on plain floats. *)
Definition Qltb (x y : Q) : bool := negb (Qle_bool y x).
Definition fmin (x y : Q) : Q := if Qltb y x then y else x.
Definition fmax (x y : Q) : Q := if Qltb x y then y else x.

(** ** Texts *)

Definition is_digit (c : ascii) : bool :=
  let n := nat_of_ascii c in (48 <=? n)%nat && (n <=? 57)%nat.
Definition is_upper (c : ascii) : bool :=
  let n := nat_of_ascii c in (65 <=? n)%nat && (n <=? 90)%nat.
Definition is_lower (c : ascii) : bool :=
  let n := nat_of_ascii c in (97 <=? n)%nat && (n <=? 122)%nat.
(** [\s] *)
Definition is_space (c : ascii) : bool :=
  let n := nat_of_ascii c in
  (n =? 32)%nat || ((9 <=? n)%nat && (n <=? 13)%nat) || ((28 <=? n)%nat && (n <=? 31)%nat).
(** [\w]; bytes of a multi-byte character count as letters. *)
Definition is_word (c : ascii) : bool :=
  is_digit c || is_upper c || is_lower c || Ascii.eqb c "_" || (128 <=? nat_of_ascii c)%nat.

Definition lower_char (c : ascii) : ascii :=
  if is_upper c then ascii_of_nat (nat_of_ascii c + 32) else c.
Definition upper_char (c : ascii) : ascii :=
  if is_lower c then ascii_of_nat (nat_of_ascii c - 32) else c.

Fixpoint str_map (f : ascii -> ascii) (s : string) : string :=
  match s with
  | EmptyString => EmptyString
  | String c r => String (f c) (str_map f r)
  end.

Fixpoint str_filter (p : ascii -> bool) (s : string) : string :=
  match s with
  | EmptyString => EmptyString
  | String c r => if p c then String c (str_filter p r) else str_filter p r
  end.

Definition lower := str_map lower_char.
Definition upper := str_map upper_char.

Fixpoint str_drop (n : nat) (s : string) : string :=
  match n, s with
  | O, _ => s
  | S k, EmptyString => EmptyString
  | S k, String _ r => str_drop k r
  end.

Fixpoint str_take (n : nat) (s : string) : string :=
  match n, s with
  | O, _ => EmptyString
  | S k, EmptyString => EmptyString
  | S k, String c r => String c (str_take k r)
  end.

(** [sub in s] *)
Fixpoint contains (sub s : string) : bool :=
  String.prefix sub s ||
  match s with
  | EmptyString => false
  | String _ r => contains sub r
  end.

Definition endswith (s suffix : string) : bool :=
  let n := String.length s in
  let k := String.length suffix in
  (k <=? n)%nat && String.eqb (str_drop (n - k) s) suffix.

(** [s.replace(old, new)] for a non-empty [old]; [skip] counts the bytes of
    a match still to be dropped. *)
Fixpoint replace_from (old new : string) (skip : nat) (s : string) : string :=
  match s with
  | EmptyString => EmptyString
  | String c r =>
      match skip with
      | S k => replace_from old new k r
      | O =>
          if String.prefix old s
          then new ++ replace_from old new (String.length old - 1) r
          else String c (replace_from old new O r)
      end
  end.

Definition replace (old new s : string) : string := replace_from old new O s.

(** Number of non-overlapping occurrences, [s.count(sub)]. *)
Fixpoint count_from (sub : string) (skip : nat) (s : string) : nat :=
  match s with
  | EmptyString => O
  | String c r =>
      match skip with
      | S k => count_from sub k r
      | O =>
          if String.prefix sub s
          then S (count_from sub (String.length sub - 1) r)
          else count_from sub O r
      end
  end.

Definition count (sub s : string) : nat := count_from sub O s.

(** [s.split(sep)] for a one-character separator; [cur] is the field being
    read, reversed. *)
Fixpoint split_on (sep : ascii) (cur : string) (s : string) : list string :=
  match s with
  | EmptyString => [cur]
  | String c r =>
      if Ascii.eqb c sep then cur :: split_on sep EmptyString r
      else split_on sep (cur ++ String c EmptyString) r
  end.

Definition split (sep : ascii) (s : string) : list string := split_on sep EmptyString s.

(** [s.split()]: the maximal runs of non-blank characters. *)
Fixpoint words_from (cur : string) (s : string) : list string :=
  match s with
  | EmptyString => if String.eqb cur EmptyString then [] else [cur]
  | String c r =>
      if is_space c
      then (if String.eqb cur EmptyString then words_from EmptyString r
            else cur :: words_from EmptyString r)
      else words_from (cur ++ String c EmptyString) r
  end.

Definition words (s : string) : list string := words_from EmptyString s.

Fixpoint join (sep : string) (l : list string) : string :=
  match l with
  | [] => EmptyString
  | [x] => x
  | x :: r => x ++ sep ++ join sep r
  end.

Fixpoint lstrip (s : string) : string :=
  match s with
  | EmptyString => EmptyString
  | String c r => if is_space c then lstrip r else s
  end.

Fixpoint str_rev_acc (acc s : string) : string :=
  match s with
  | EmptyString => acc
  | String c r => str_rev_acc (String c acc) r
  end.
Definition str_rev (s : string) : string := str_rev_acc EmptyString s.

Definition strip (s : string) : string := str_rev (lstrip (str_rev (lstrip s))).

(** Truth value of a text. *)
Definition truthy (s : string) : bool := negb (String.eqb s EmptyString).

(** [s or default] *)
Definition str_or (s default : string) : string := if truthy s then s else default.

End Py.

Import Py.
Local Open Scope py_scope.

(* ================================================================== *)
(** * app/config.py *)
(* ================================================================== *)

Module Config.

Local Open Scope Q_scope.

Record Settings : Type := {
  similarity_threshold : Q;
  auto_match_threshold : Q;
  manual_review_threshold : Q;
  amount_tolerance_percent : Q;
  amount_tolerance_absolute : Q;
  date_tolerance_before : Z;
  date_tolerance_after : Z;
  max_transactions_per_batch : Z;
  max_file_size_mb : Z;
  supported_formats : list string
}.

(** The values of the class body (no environment override). *)
Definition settings : Settings := {|
  similarity_threshold := 0.8;
  auto_match_threshold := 0.95;
  manual_review_threshold := 0.7;
  amount_tolerance_percent := 2.0;
  amount_tolerance_absolute := 10.0;
  date_tolerance_before := 5;
  date_tolerance_after := 10;
  max_transactions_per_batch := 1000;
  max_file_size_mb := 50;
  supported_formats := ["ofx"; "csv"; "pdf"]%string
|}.

End Config.

(* ================================================================== *)
(** * Dates ([datetime.date]) *)
(* ================================================================== *)

Module Date.

Local Open Scope Z_scope.

Record date : Type := mkdate { year : Z; month : Z; day : Z }.

Definition is_leap (y : Z) : bool :=
  (y mod 4 =? 0) && (negb (y mod 100 =? 0) || (y mod 400 =? 0)).

Definition days_in_month (y m : Z) : Z :=
  if m =? 2 then (if is_leap y then 29 else 28)
  else if (m =? 4) || (m =? 6) || (m =? 9) || (m =? 11) then 30
  else 31.

(** What the constructor [date(y, m, d)] accepts. *)
Definition valid (d : date) : bool :=
  (1 <=? year d) && (year d <=? 9999) &&
  (1 <=? month d) && (month d <=? 12) &&
  (1 <=? day d) && (day d <=? days_in_month (year d) (month d)).

Definition days_before_year (y : Z) : Z :=
  let p := y - 1 in p * 365 + p / 4 - p / 100 + p / 400.

Fixpoint days_before_month_upto (y : Z) (k : nat) : Z :=
  match k with
  | O => 0
  | S j => days_before_month_upto y j + days_in_month y (Z.of_nat k)
  end.

Definition days_before_month (y m : Z) : Z :=
  days_before_month_upto y (Z.to_nat (m - 1)).

Definition toordinal (d : date) : Z :=
  days_before_year (year d) + days_before_month (year d) (month d) + day d.

(** [(a - b).days] *)
Definition days_between (a b : date) : Z := toordinal a - toordinal b.

Definition eqb (a b : date) : bool :=
  (year a =? year b) && (month a =? month b) && (day a =? day b).

(** [a <= b] on dates. *)
Definition leb (a b : date) : bool := toordinal a <=? toordinal b.

End Date.

(* ================================================================== *)
(** * app/models/reconciliation_models.py and the dictionaries passed around *)
(* ================================================================== *)

Module Models.

(** A transaction id is an f-string; it is kept as its parts:
    [csv_{index}_{date:%Y%m%d}_{abs(amount)}], [ofx_{fitid}_{date:%Y%m%d}],
    or a literal. *)
Inductive TxnId : Type :=
| IdText (s : string)
| IdCsv (index : nat) (d : Date.date) (abs_amount : Q)
| IdOfx (fitid : string) (d : Date.date).

Definition TxnId_eqb (a b : TxnId) : bool :=
  match a, b with
  | IdText s, IdText t => String.eqb s t
  | IdCsv i d x, IdCsv j e y => Nat.eqb i j && Date.eqb d e && Qeq_bool x y
  | IdOfx s d, IdOfx t e => String.eqb s t && Date.eqb d e
  | _, _ => false
  end.

(** The transaction dictionary built by the parsers. *)
Record Transaction : Type := {
  txn_id : TxnId;
  txn_date : Date.date;
  txn_amount : Q;                       (* a float *)
  txn_description : string;
  txn_type : string;
  txn_reference : string;
  txn_account_id : option string;
  txn_source : string;
  txn_raw_data : list (string * string)
}.

(** A date as a ledger record carries it: ISO text or a date object. *)
Inductive DateValue : Type :=
| DateStr (s : string)
| DateObj (d : Date.date).

(** A receivable or payable record as the matcher reads it; every field but
    the id is read with [.get]. *)
Record Candidate : Type := {
  cand_id : string;
  cand_amount : option Q;
  customer_name : option string;
  supplier_name : option string;
  invoice_number : option string;
  due_date : option DateValue;
  invoice_date : option DateValue;
  payment_date : option DateValue;
  created_at : option DateValue
}.

Record TransactionMatch : Type := {
  transaction_id : TxnId;
  invoice_id : string;
  confidence_score : pynum;
  match_type : string;
  matched_amount : Q;                  (* a Decimal *)
  match_reason : string;
  matched_at : Z;
  matched_by : option string
}.

Record Discrepancy : Type := {
  disc_id : string;
  discrepancy_type : string;
  disc_transaction_id : option TxnId;
  disc_invoice_id : option string
}.

End Models.

Import Models.

(* ================================================================== *)
(** * app/processors/fuzzy_matcher.py *)
(* ================================================================== *)

Module FuzzyMatcher.

Local Open Scope string_scope.
Local Open Scope Q_scope.

(** The similarity library ([fuzzywuzzy.fuzz], [difflib.SequenceMatcher]),
    [re.findall] for the reference patterns and [datetime.fromisoformat]
    ([None] for [ValueError]). *)
Record TextLib : Type := {
  fuzz_ratio : string -> string -> Z;
  fuzz_partial_ratio : string -> string -> Z;
  fuzz_token_sort_ratio : string -> string -> Z;
  fuzz_token_set_ratio : string -> string -> Z;
  SequenceMatcher_ratio : string -> string -> Q;
  re_findall : string -> string -> list string;
  fromisoformat : string -> option Date.date
}.

(** The attributes of [self]. *)
Record t : Type := {
  amount_tolerance_percent : Q;
  amount_tolerance_absolute : Q;
  date_tolerance_before : Z;
  date_tolerance_after : Z;
  similarity_threshold : Q
}.

Definition __init__ (settings : Config.Settings) : t := {|
  amount_tolerance_percent := Config.amount_tolerance_percent settings / 100;
  amount_tolerance_absolute := Config.amount_tolerance_absolute settings;
  date_tolerance_before := Config.date_tolerance_before settings;
  date_tolerance_after := Config.date_tolerance_after settings;
  similarity_threshold := Config.similarity_threshold settings
|}.

Record Weights : Type := {
  w_amount : Q; w_date : Q; w_description : Q; w_reference : Q
}.

Record Breakdown : Type := {
  amount_score : pynum;
  date_score : pynum;
  description_score : pynum;
  reference_score : pynum;
  weights : Weights
}.

Record ScoreData : Type := {
  total_score : pynum;
  primary_reason : string;
  breakdown : Breakdown
}.

Record BestMatch : Type := {
  invoice : Candidate;
  confidence : pynum;
  reason : string;
  score_breakdown : Breakdown
}.

(** [d.get(key, default)] *)
Definition get {A} (o : option A) (default : A) : A :=
  match o with Some a => a | None => default end.

(** [_calculate_amount_score]: the operands are the Decimals of the caller,
    the tolerances and the literals are floats. *)
Definition _calculate_amount_score (self : t) (txn_amount candidate_amount : pynum)
  : result pynum :=
  if Qeq_bool (num_value candidate_amount) 0 then Ok (PyFloat 0.0)
  else
    d <- py_sub txn_amount candidate_amount ;;
    let abs_diff := py_abs d in
    percent_diff <- py_div abs_diff candidate_amount ;;
    if Qeq_bool (num_value abs_diff) 0 then
      Ok (PyFloat 1.0)
    else if py_leb abs_diff (PyFloat (amount_tolerance_absolute self)) then
      Ok (PyFloat 0.95)
    else if py_leb percent_diff (PyFloat (amount_tolerance_percent self)) then
      q <- py_div percent_diff (PyFloat (amount_tolerance_percent self)) ;;
      p <- py_mul q (PyFloat 0.3) ;;
      r <- py_sub (PyFloat 1.0) p ;;
      Ok (py_max (PyFloat 0.0) r)
    else
      r <- py_sub (PyFloat 0.3) (py_min (PyFloat 0.3) percent_diff) ;;
      Ok (py_max (PyFloat 0.0) r).

Definition _calculate_date_score (self : t) (txn_date : Date.date)
  (candidate_date : option Date.date) : Q :=
  match candidate_date with
  | None => 0.5
  | Some candidate_date =>
      let days_diff := Z.abs (Date.days_between txn_date candidate_date) in
      if (days_diff =? 0)%Z then 1.0
      else if (days_diff <=? 3)%Z then 0.9
      else if (days_diff <=? 7)%Z then 0.8
      else if (days_diff <=? date_tolerance_after self)%Z then
        fmax 0.0 (0.8 - inject_Z (days_diff - 7) * 0.1)
      else
        fmax 0.0 (0.2 - fmin 0.2 (inject_Z days_diff * 0.01))
  end.

Definition important_keywords : list string :=
  ["ted"; "pix"; "transferencia"; "pagamento"; "recebimento";
   "boleto"; "fatura"; "nota"; "fiscal"; "nf"].

Definition _calculate_keyword_bonus (txn_desc candidate_desc : string) : Q :=
  let bonus :=
    fold_left
      (fun bonus keyword =>
         if contains keyword (lower txn_desc) && contains keyword (lower candidate_desc)
         then bonus + 0.05 else bonus)
      important_keywords 0.0 in
  fmin 0.2 bonus.

(** [max(scores)] of a non-empty list. *)
Definition list_max (scores : list Q) : Q :=
  match scores with
  | [] => 0
  | x :: r => fold_left fmax r x
  end.

Section WithTextLib.

Variable lib : TextLib.

Definition _calculate_description_score (txn_desc candidate_desc : string) : Q :=
  if negb (truthy txn_desc) || negb (truthy candidate_desc) then 0.3
  else
    let scores :=
      [ inject_Z (fuzz_ratio lib txn_desc candidate_desc) / 100.0;
        inject_Z (fuzz_partial_ratio lib txn_desc candidate_desc) / 100.0;
        inject_Z (fuzz_token_sort_ratio lib txn_desc candidate_desc) / 100.0;
        inject_Z (fuzz_token_set_ratio lib txn_desc candidate_desc) / 100.0;
        SequenceMatcher_ratio lib txn_desc candidate_desc ] in
    let best_score := list_max scores in
    let bonus := _calculate_keyword_bonus txn_desc candidate_desc in
    fmin 1.0 (best_score + bonus).

Definition accent_replacements : list (string * string) :=
  [("á", "a"); ("à", "a"); ("ã", "a"); ("â", "a");
   ("é", "e"); ("ê", "e");
   ("í", "i"); ("î", "i");
   ("ó", "o"); ("ô", "o"); ("õ", "o");
   ("ú", "u"); ("û", "u");
   ("ç", "c")].

Definition _normalize_description (description : string) : string :=
  if negb (truthy description) then ""
  else
    let normalized := lower description in
    let normalized :=
      fold_left (fun s p => replace (fst p) (snd p) s) accent_replacements normalized in
    (* re.sub(r'[^\w\s]', ' ', normalized) *)
    let normalized :=
      str_map (fun c => if is_word c || is_space c then c else " "%char) normalized in
    join " " (words normalized).

Definition reference_patterns : list string :=
  ["\b\d{6,}\b"; "\b[A-Z]{2,3}[-\s]?\d{3,}\b"; "\b\d{3,}[-/]\d{3,}\b"].

Definition _extract_reference_numbers (text : string) : list string :=
  if negb (truthy text) then []
  else
    let references :=
      fold_left (fun refs pattern => (refs ++ re_findall lib pattern (upper text))%list)
                reference_patterns [] in
    fold_left
      (fun unique_refs ref =>
         (* re.sub(r'[-\s]', '', ref) *)
         let normalized_ref :=
           str_filter (fun c => negb (Ascii.eqb c "-" || is_space c)) ref in
         if existsb (String.eqb normalized_ref) unique_refs then unique_refs
         else (unique_refs ++ [normalized_ref])%list)
      references [].

(** The inner loop of [_calculate_reference_score]: [Some] is a [return]. *)
Fixpoint reference_scan_candidate (t_ref : string) (candidate_ref : list string) : option Q :=
  match candidate_ref with
  | [] => None
  | c_ref :: rest =>
      if String.eqb t_ref c_ref then Some 1.0
      else if (4 <=? String.length t_ref)%nat && (4 <=? String.length c_ref)%nat then
        let similarity := inject_Z (fuzz_ratio lib t_ref c_ref) / 100.0 in
        if Qltb 0.8 similarity then Some similarity
        else reference_scan_candidate t_ref rest
      else reference_scan_candidate t_ref rest
  end.

Fixpoint reference_scan (txn_ref candidate_ref : list string) : option Q :=
  match txn_ref with
  | [] => None
  | t_ref :: rest =>
      match reference_scan_candidate t_ref candidate_ref with
      | Some score => Some score
      | None => reference_scan rest candidate_ref
      end
  end.

Definition _calculate_reference_score (transaction : Transaction) (candidate : Candidate) : Q :=
  let txn_ref :=
    _extract_reference_numbers
      (txn_description transaction ++ " " ++ txn_reference transaction) in
  let candidate_ref :=
    _extract_reference_numbers
      (get (invoice_number candidate) "" ++ " " ++ cand_id candidate) in
  match txn_ref, candidate_ref with
  | [], _ | _, [] => 0.5
  | _, _ =>
      match reference_scan txn_ref candidate_ref with
      | Some score => score
      | None => 0.0
      end
  end.

(** One field of [_parse_candidate_date]: [Some] is a [return], [None] goes
    on to the next field. *)
Definition parse_date_value (date_value : option DateValue) : option Date.date :=
  match date_value with
  | None => None
  | Some (DateStr s) =>
      if truthy s then fromisoformat lib (replace "Z" "+00:00" s) else None
  | Some (DateObj d) => Some d
  end.

Definition _parse_candidate_date (candidate : Candidate) : option Date.date :=
  let date_fields :=
    [due_date candidate; invoice_date candidate;
     payment_date candidate; created_at candidate] in
  fold_left
    (fun found date_value =>
       match found with
       | Some d => Some d
       | None => parse_date_value date_value
       end)
    date_fields None.

(** [max(scores.items(), key=lambda x: x[1])]: the first entry of greatest
    value. *)
Definition first_max (scores : list (string * Q)) : string * Q :=
  match scores with
  | [] => ("", 0)
  | x :: r => fold_left (fun best y => if Qltb (snd best) (snd y) then y else best) r x
  end.

Definition _determine_primary_reason (amount_score date_score desc_score ref_score : Q)
  : string :=
  let scores :=
    [ ("valor_exato", if Qle_bool 0.95 amount_score then amount_score else 0);
      ("valor_similar",
        if Qle_bool 0.8 amount_score && Qltb amount_score 0.95 then amount_score else 0);
      ("data_exata", if Qle_bool 0.95 date_score then date_score else 0);
      ("data_proxima",
        if Qle_bool 0.8 date_score && Qltb date_score 0.95 then date_score else 0);
      ("descricao_similar", if Qle_bool 0.8 desc_score then desc_score else 0);
      ("referencia_match", if Qle_bool 0.8 ref_score then ref_score else 0) ] in
  let best_reason := first_max scores in
  if Qltb 0 (snd best_reason) then fst best_reason
  else if Qle_bool 0.7 amount_score && Qle_bool 0.7 date_score then "valor_e_data"
  else if Qle_bool 0.7 amount_score && Qle_bool 0.7 desc_score then "valor_e_descricao"
  else if Qle_bool 0.7 desc_score && Qle_bool 0.7 date_score then "descricao_e_data"
  else "combinacao_fatores".

Definition the_weights : Weights :=
  {| w_amount := 0.40; w_date := 0.25; w_description := 0.25; w_reference := 0.10 |}.

Variable self : t.

Definition _calculate_match_score (transaction : Transaction) (candidate : Candidate)
  (txn_amount : pynum) (txn_date : Date.date) (txn_desc : string) : result ScoreData :=
  let candidate_amount := PyDecimal (get (cand_amount candidate) 0) in
  let candidate_date := _parse_candidate_date candidate in
  let candidate_desc :=
    _normalize_description
      (get (customer_name candidate) "" ++ " " ++
       get (supplier_name candidate) "" ++ " " ++
       get (invoice_number candidate) "") in
  amount_score <- _calculate_amount_score self txn_amount candidate_amount ;;
  let date_score := PyFloat (_calculate_date_score self txn_date candidate_date) in
  let desc_score := PyFloat (_calculate_description_score txn_desc candidate_desc) in
  let ref_score := PyFloat (_calculate_reference_score transaction candidate) in
  a <- py_mul amount_score (PyFloat 0.40) ;;
  d <- py_mul date_score (PyFloat 0.25) ;;
  s <- py_mul desc_score (PyFloat 0.25) ;;
  r <- py_mul ref_score (PyFloat 0.10) ;;
  ad <- py_add a d ;;
  ads <- py_add ad s ;;
  total_score <- py_add ads r ;;
  let primary_reason :=
    _determine_primary_reason (num_value amount_score) (num_value date_score)
                              (num_value desc_score) (num_value ref_score) in
  Ok {| total_score := total_score;
        primary_reason := primary_reason;
        breakdown := {| amount_score := amount_score;
                        date_score := date_score;
                        description_score := desc_score;
                        reference_score := ref_score;
                        weights := the_weights |} |}.

(** The loop state of [find_best_match]. *)
Definition search_state : Type := (option BestMatch * pynum)%type.

(** One iteration; an exception in the body is caught and the candidate
    passed over. *)
Definition find_best_match_step (transaction : Transaction)
  (transaction_amount : pynum) (transaction_date : Date.date) (transaction_desc : string)
  (st : search_state) (candidate : Candidate) : search_state :=
  let '(best_match, best_score) := st in
  match _calculate_match_score transaction candidate
          transaction_amount transaction_date transaction_desc with
  | Raise _ => st
  | Ok score_data =>
      let total_score := total_score score_data in
      if py_gtb total_score best_score
         && py_geb total_score (PyFloat (similarity_threshold self))
      then (Some {| invoice := candidate;
                    confidence := total_score;
                    reason := primary_reason score_data;
                    score_breakdown := breakdown score_data |},
            total_score)
      else st
  end.

Definition find_best_match (transaction : Transaction) (candidates : list Candidate)
  : option BestMatch :=
  match candidates with
  | [] => None
  | _ =>
      let transaction_amount := py_abs (PyDecimal (txn_amount transaction)) in
      let transaction_date := txn_date transaction in
      let transaction_desc := _normalize_description (txn_description transaction) in
      fst (fold_left
             (find_best_match_step transaction
                transaction_amount transaction_date transaction_desc)
             candidates (None, PyFloat 0.0))
  end.

End WithTextLib.

End FuzzyMatcher.

(* ================================================================== *)
(** * app/processors/statement_parser.py *)
(* ================================================================== *)

Module StatementParser.

Local Open Scope string_scope.

(** The uploaded file: its name and its bytes. *)
Record UploadFile : Type := {
  filename : string;
  content : string
}.

(** A [pandas.DataFrame] as the parser reads it: the header, and per row
    the cells as [str(...)] shows them. *)
Record DataFrame : Type := {
  columns : list string;
  rows : list (list string)
}.

Record OfxTransaction : Type := {
  ofx_id : string;
  ofx_date : Date.date;
  ofx_amount : Q;
  ofx_memo : string;
  ofx_payee : string;
  ofx_checknum : string;
  ofx_trntype : string
}.

Record OfxAccount : Type := {
  ofx_account_id : string;
  ofx_transactions : list OfxTransaction
}.

(** [pandas.read_csv(path, encoding=...)], [OfxParser.parse] and the flag
    set by the conditional import. *)
Record FileLib : Type := {
  OFX_AVAILABLE : bool;
  read_csv : string -> string -> result DataFrame;
  OfxParser_parse : string -> result (list OfxAccount)
}.

Definition _detect_format (filename : string) (content : string) : string :=
  let filename_lower := lower filename in
  if endswith filename_lower ".ofx" then "ofx"
  else if endswith filename_lower ".csv" then "csv"
  else if endswith filename_lower ".pdf" then "pdf"
  else
    let content_str := str_take 1000 content in
    if contains "<OFX>" content_str || contains "OFXHEADER" content_str then "ofx"
    else if contains "," content_str && contains (String "010" "") content_str then "csv"
    else if contains "%PDF" content_str then "pdf"
    else "csv".

(** ** Dates *)

Definition digit_value (c : ascii) : Z := Z.of_nat (nat_of_ascii c) - 48.

Fixpoint digits_value (acc : Z) (s : string) : Z :=
  match s with
  | EmptyString => acc
  | String c r => digits_value (acc * 10 + digit_value c) r
  end.

Definition all_digits (s : string) : bool :=
  String.eqb (str_filter is_digit s) s.

(** The directives of [strptime] used by the parser, as the regular
    expressions of [_strptime] read them: the value, and the text left. *)
Definition read_digits (n : nat) (s : string) : option (Z * string) :=
  let d := str_take n s in
  if Nat.eqb (String.length d) n && all_digits d
  then Some (digits_value 0 d, str_drop n s) else None.

(** [%d]: [3[0-1]|[1-2]\d|0[1-9]|[1-9]]; [%m]: [1[0-2]|0[1-9]|[1-9]]:
    the two-digit readings are tried first. *)
Definition directive_readings (c : ascii) (s : string) : list (Z * string) :=
  let two := match read_digits 2 s with Some r => [r] | None => [] end in
  let one := match read_digits 1 s with Some r => [r] | None => [] end in
  let in_range lo hi := filter (fun r => (lo <=? fst r)%Z && (fst r <=? hi)%Z) in
  if Ascii.eqb c "d" then in_range 1%Z 31%Z two ++ in_range 1%Z 9%Z one
  else if Ascii.eqb c "m" then in_range 1%Z 12%Z two ++ in_range 1%Z 9%Z one
  else if Ascii.eqb c "Y" then match read_digits 4 s with Some r => [r] | None => [] end
  else if Ascii.eqb c "y" then two
  else [].

Record DateFields : Type := {
  f_year : option Z; f_month : option Z; f_day : option Z
}.

Definition set_field (c : ascii) (v : Z) (f : DateFields) : DateFields :=
  if Ascii.eqb c "d" then {| f_year := f_year f; f_month := f_month f; f_day := Some v |}
  else if Ascii.eqb c "m" then {| f_year := f_year f; f_month := Some v; f_day := f_day f |}
  else if Ascii.eqb c "Y" then {| f_year := Some v; f_month := f_month f; f_day := f_day f |}
  else (* %y *)
    {| f_year := Some (if (v <=? 68)%Z then 2000 + v else 1900 + v)%Z;
       f_month := f_month f; f_day := f_day f |}.

(** Matching of a format against the whole text, with the backtracking of
    the regular expression. *)
Fixpoint match_format (fmt : string) (s : string) (f : DateFields) : option DateFields :=
  match fmt with
  | EmptyString => if String.eqb s "" then Some f else None
  | String "%" (String c fmt') =>
      fold_left
        (fun found r =>
           match found with
           | Some _ => found
           | None => match_format fmt' (snd r) (set_field c (fst r) f)
           end)
        (directive_readings c s) None
  | String c fmt' =>
      match s with
      | String c' s' => if Ascii.eqb c c' then match_format fmt' s' f else None
      | EmptyString => None
      end
  end.

(** [datetime.strptime(text, fmt).date()], [None] for [ValueError]. *)
Definition strptime (text fmt : string) : option Date.date :=
  match match_format fmt text {| f_year := None; f_month := None; f_day := None |} with
  | Some {| f_year := Some y; f_month := Some m; f_day := Some d |} =>
      let r := Date.mkdate y m d in
      if Date.valid r then Some r else None
  | _ => None
  end.

(** [d.replace(year=...)], [None] for [ValueError]. *)
Definition replace_year (d : Date.date) (y : Z) : option Date.date :=
  let r := Date.mkdate y (Date.month d) (Date.day d) in
  if Date.valid r then Some r else None.

Definition date_patterns : list string :=
  ["%d/%m/%Y"; "%d-%m-%Y"; "%d.%m.%Y"; "%Y-%m-%d"; "%Y/%m/%d"; "%d/%m/%y"; "%d-%m-%y"].

Definition _parse_date (date_str : string) : result Date.date :=
  (* re.sub(r'[^\d\/\-\.]', '', date_str) *)
  let date_clean :=
    str_filter (fun c => is_digit c || Ascii.eqb c "/" || Ascii.eqb c "-" || Ascii.eqb c ".")
               date_str in
  let attempt pattern :=
    match strptime date_clean pattern with
    | None => None
    | Some parsed_date =>
        if (Date.year parsed_date <? 1950)%Z
        then replace_year parsed_date (Date.year parsed_date + 100)
        else Some parsed_date
    end in
  match
    fold_left
      (fun found pattern => match found with Some _ => found | None => attempt pattern end)
      date_patterns None
  with
  | Some d => Ok d
  | None => Raise (ValueError ("Não foi possível fazer parse da data: " ++ date_str))
  end.

(** ** Amounts *)

(** The leading digits of a text and what follows them. *)
Fixpoint span_digits (s : string) : string * string :=
  match s with
  | EmptyString => (EmptyString, EmptyString)
  | String c r =>
      if is_digit c then let (d, rest) := span_digits r in (String c d, rest)
      else (EmptyString, s)
  end.

Fixpoint pow10 (n : nat) : positive :=
  match n with
  | O => 1%positive
  | S k => (10 * pow10 k)%positive
  end.

(** [float(text)] on a text of digits, signs and points: an optional sign,
    then digits with at most one point and at least one digit; [None] for
    [ValueError]. *)
Definition py_float (text : string) : option Q :=
  let '(sign, body) :=
    match text with
    | String "+" r => (1%Z, r)
    | String "-" r => ((-1)%Z, r)
    | _ => (1%Z, text)
    end in
  let (int_part, rest) := span_digits body in
  match rest with
  | EmptyString =>
      if truthy int_part then Some (Qred (inject_Z (sign * digits_value 0 int_part)))
      else None
  | String "." frac =>
      let (frac_part, rest') := span_digits frac in
      if String.eqb rest' "" && (truthy int_part || truthy frac_part)
      then Some (Qred (Qmake (sign * digits_value 0 (int_part ++ frac_part))
                             (pow10 (String.length frac_part))))
      else None
  | _ => None
  end.

Definition _parse_amount (amount_str : string) : result Q :=
  (* re.sub(r'[^\d\,\.\-\+]', '', amount_str) *)
  let amount_clean :=
    str_filter (fun c => is_digit c || Ascii.eqb c "," || Ascii.eqb c "."
                         || Ascii.eqb c "-" || Ascii.eqb c "+")
               amount_str in
  let amount_clean :=
    if contains "," amount_clean && contains "." amount_clean then
      replace "," "." (replace "." "" amount_clean)
    else if contains "," amount_clean then
      let parts := split "," amount_clean in
      if Nat.eqb (List.length parts) 2
         && (String.length (nth 1 parts "") <=? 2)%nat
      then replace "," "." amount_clean
      else replace "," "" amount_clean
    else amount_clean in
  match py_float amount_clean with
  | Some x => Ok x
  | None => Raise (ValueError ("Não foi possível fazer parse do valor: " ++ amount_str))
  end.

(** ** The three formats *)

Definition string_of_nat (n : nat) : string :=
  DecimalString.NilZero.string_of_uint (Nat.to_uint n).

Record ColumnMapping : Type := {
  m_date : string;
  m_amount : string;
  m_description : option string;
  m_reference : option string
}.

(** The first column containing one of the patterns. *)
Definition find_column (patterns columns : list string) : option string :=
  find (fun col => existsb (fun pattern => contains pattern col) patterns) columns.

Definition _detect_csv_columns (columns : list string) : option ColumnMapping :=
  let date_patterns := ["data"; "date"; "dt"; "dt_transacao"; "dt_movimento"] in
  let amount_patterns := ["valor"; "amount"; "vlr"; "vl_transacao"; "credito"; "debito"] in
  let desc_patterns :=
    ["descricao"; "description"; "desc"; "historico"; "memo"; "observacao"] in
  let ref_patterns := ["referencia"; "reference"; "ref"; "documento"; "doc"] in
  match find_column date_patterns columns, find_column amount_patterns columns with
  | Some d, Some a =>
      Some {| m_date := d; m_amount := a;
              m_description := find_column desc_patterns columns;
              m_reference := find_column ref_patterns columns |}
  | _, _ => None
  end.

(** [row[name]] *)
Definition row_item (columns row : list string) (name : string) : result string :=
  match find (fun p => String.eqb (fst p) name) (combine columns row) with
  | Some p => Ok (snd p)
  | None => Raise (KeyError name)
  end.

(** [row.get(name, default)] *)
Definition row_get (columns row : list string) (name default : string) : string :=
  match row_item columns row name with
  | Ok v => v
  | Raise _ => default
  end.

(** The body of the row loop of [_parse_csv]. *)
Definition csv_row (column_mapping : ColumnMapping) (columns : list string)
  (index : nat) (row : list string) : result Transaction :=
  date_cell <- row_item columns row (m_date column_mapping) ;;
  let date_str := strip date_cell in
  amount_cell <- row_item columns row (m_amount column_mapping) ;;
  let amount_str := strip amount_cell in
  description_cell <-
    row_item columns row (FuzzyMatcher.get (m_description column_mapping) "") ;;
  let description := strip description_cell in
  transaction_date <- _parse_date date_str ;;
  amount <- _parse_amount amount_str ;;
  Ok {| txn_id := IdCsv index transaction_date (Qabs amount);
        txn_date := transaction_date;
        txn_amount := amount;
        txn_description := str_or description ("Transação CSV " ++ string_of_nat index);
        txn_type := if Qltb 0 amount then "credit" else "debit";
        txn_reference :=
          strip (row_get columns row (FuzzyMatcher.get (m_reference column_mapping) "") "");
        txn_account_id := None;
        txn_source := "csv";
        txn_raw_data := combine columns row |}.

(** The row loop: a row whose body raises is logged and passed over. *)
Fixpoint csv_rows (column_mapping : ColumnMapping) (columns : list string)
  (index : nat) (rows : list (list string)) (transactions : list Transaction)
  : list Transaction :=
  match rows with
  | [] => transactions
  | row :: rest =>
      match csv_row column_mapping columns index row with
      | Ok txn => csv_rows column_mapping columns (S index) rest (transactions ++ [txn])
      | Raise _ => csv_rows column_mapping columns (S index) rest transactions
      end
  end.

Definition _parse_pdf : result (list Transaction) :=
  Ok [ {| txn_id := IdText "pdf_001_20240118";
          txn_date := Date.mkdate 2024 1 18;
          txn_amount := 1500.00;
          txn_description := "TED RECEBIDA EMPRESA ABC LTDA";
          txn_type := "credit";
          txn_reference := "TED001";
          txn_account_id := None;
          txn_source := "pdf";
          txn_raw_data := [] |};
       {| txn_id := IdText "pdf_002_20240119";
          txn_date := Date.mkdate 2024 1 19;
          txn_amount := - 850.00;
          txn_description := "PAGAMENTO FORNECEDOR XYZ";
          txn_type := "debit";
          txn_reference := "PAG001";
          txn_account_id := None;
          txn_source := "pdf";
          txn_raw_data := [] |} ].

Section WithFileLib.

Variable lib : FileLib.

(** The encoding loop of [_parse_csv]: [Ok None] when every encoding
    failed to decode. *)
Fixpoint read_with_encodings (content : string) (encodings : list string)
  : result (option DataFrame) :=
  match encodings with
  | [] => Ok None
  | encoding :: rest =>
      match read_csv lib content encoding with
      | Ok df => Ok (Some df)
      | Raise (UnicodeDecodeError _) => read_with_encodings content rest
      | Raise e => Raise e
      end
  end.

Definition _parse_csv (content : string) : result (list Transaction) :=
  let encodings := ["utf-8"; "latin1"; "cp1252"; "iso-8859-1"] in
  df <- read_with_encodings content encodings ;;
  match df with
  | None => Raise (ValueError "Não foi possível ler o arquivo CSV com nenhum encoding")
  | Some df =>
      let columns := map (fun col => strip (lower col)) (columns df) in
      match _detect_csv_columns columns with
      | None => Raise (ValueError "Não foi possível identificar as colunas do CSV")
      | Some column_mapping =>
          Ok (csv_rows column_mapping (StatementParser.columns df) 0 (rows df) [])
      end
  end.

Definition ofx_transaction (account : OfxAccount) (transaction : OfxTransaction)
  : Transaction :=
  {| txn_id := IdOfx (ofx_id transaction) (ofx_date transaction);
     txn_date := ofx_date transaction;
     txn_amount := ofx_amount transaction;
     txn_description :=
       str_or (ofx_memo transaction) (str_or (ofx_payee transaction) "Transação OFX");
     txn_type := if Qltb 0 (ofx_amount transaction) then "credit" else "debit";
     txn_reference := str_or (ofx_checknum transaction) (ofx_id transaction);
     txn_account_id := Some (ofx_account_id account);
     txn_source := "ofx";
     txn_raw_data :=
       [("fitid", ofx_id transaction); ("payee", ofx_payee transaction);
        ("memo", ofx_memo transaction); ("checknum", ofx_checknum transaction);
        ("trntype", ofx_trntype transaction)] |}.

Definition _parse_ofx (content : string) : result (list Transaction) :=
  if negb (OFX_AVAILABLE lib) then
    Raise (ValueError "Parser OFX não disponível. Instale ofxparse: pip install ofxparse")
  else
    accounts <- OfxParser_parse lib content ;;
    Ok (flat_map
          (fun account => map (ofx_transaction account) (ofx_transactions account))
          accounts).

(** [parse_statement]: the bytes go through a temporary file to the parser
    of the detected format. *)
Definition parse_statement (statement_file : UploadFile) : result (list Transaction) :=
  let content := content statement_file in
  let file_format := _detect_format (filename statement_file) content in
  if String.eqb file_format "ofx" then _parse_ofx content
  else if String.eqb file_format "csv" then _parse_csv content
  else if String.eqb file_format "pdf" then _parse_pdf
  else Raise (ValueError ("Formato não suportado: " ++ file_format)).

Definition get_supported_formats : list string :=
  if OFX_AVAILABLE lib then ["csv"; "pdf"; "ofx"] else ["csv"; "pdf"].

Definition _estimate_transaction_count (content : string) (file_format : string) : Z :=
  if String.eqb file_format "csv" then
    Z.max 0 (Z.of_nat (count (String "010" "") content) - 1)
  else if String.eqb file_format "ofx" then
    Z.of_nat (count "<STMTTRN>" content)
  else if String.eqb file_format "pdf" then
    Z.min 100 (Z.max 10 (Z.of_nat (String.length content) / 1000))
  else 0%Z.

(** The dictionary returned by [validate_statement_file]. *)
Inductive Validation : Type :=
| Invalid (error : string)
| Valid (format : string) (size : Z) (estimated_transactions : Z).

Definition validate_statement_file (filename : string) (content : string) : Validation :=
  let file_format := _detect_format filename content in
  let file_size := Z.of_nat (String.length content) in
  if (file_size =? 0)%Z then Invalid "Arquivo vazio"
  else if (50 * 1024 * 1024 <? file_size)%Z then
    Invalid "Arquivo muito grande (máximo 50MB)"
  else if negb (existsb (String.eqb file_format) get_supported_formats) then
    Invalid ("Formato não suportado: " ++ file_format)
  else Valid file_format file_size (_estimate_transaction_count content file_format).

End WithFileLib.

End StatementParser.

(* ================================================================== *)
(** * app/reconciliation_engine.py *)
(* ================================================================== *)

Module ReconciliationEngine.

Local Open Scope string_scope.
Local Open Scope Q_scope.

(** The outcome of [client.get(...)]: a response with its status and JSON
    body, or an exception. *)
Inductive HttpResult : Type :=
| HttpResponse (status_code : Z) (json : list Candidate)
| HttpFailure (e : exn).

(** The collaborators of the engine: the core API (queried with a path, the
    ordinals of the two dates and a status filter), the discrepancy
    detector and the clock. *)
Record Collaborators : Type := {
  http_get : string -> Z -> Z -> string -> HttpResult;
  detect_discrepancies :
    list Transaction -> list TransactionMatch -> result (list Discrepancy);
  utcnow : Z
}.

Record Summary : Type := {
  total_transactions : nat;
  matched_count : nat;
  unmatched_count : Z;
  matching_rate : Q;
  total_credits : Q;
  total_debits : Q;
  matched_amount_total : Q
}.

Record TypeTotals : Type := {
  type_matches : nat;
  type_amount : Q
}.

Record Report : Type := {
  bank_account_id : string;
  processed_at : Z;
  period_start : option Date.date;
  period_end : option Date.date;
  summary : Summary;
  accounts_receivable : TypeTotals;
  accounts_payable : TypeTotals;
  discrepancies_total : nat;
  discrepancies_by_type : list (string * nat);
  matches : list TransactionMatch;
  unmatched_transactions : list Transaction
}.

(** The top-level keys of the report dictionary. *)
Definition report_keys : list string :=
  ["bank_account_id"; "processed_at"; "period"; "summary"; "by_type";
   "discrepancies"; "matches"; "unmatched_transactions"].

(** What [process_bank_statement] returns. *)
Inductive Response : Type :=
| ErrorResponse (error : string) (account : string) (at_time : option Z)
| ReportResponse (report : Report).

Definition simulated_ar : list Candidate :=
  [ {| cand_id := "ar-001"; cand_amount := Some 1500.00;
       customer_name := Some "Cliente ABC Ltda"; supplier_name := None;
       invoice_number := Some "NF-001";
       due_date := Some (DateStr "2024-01-15"); invoice_date := None;
       payment_date := None; created_at := None |};
    {| cand_id := "ar-002"; cand_amount := Some 2800.50;
       customer_name := Some "Empresa XYZ S/A"; supplier_name := None;
       invoice_number := Some "NF-002";
       due_date := Some (DateStr "2024-01-20"); invoice_date := None;
       payment_date := None; created_at := None |} ].

Definition simulated_ap : list Candidate :=
  [ {| cand_id := "ap-001"; cand_amount := Some 850.00;
       customer_name := None; supplier_name := Some "Fornecedor ABC";
       invoice_number := Some "FAT-001";
       due_date := Some (DateStr "2024-01-18"); invoice_date := None;
       payment_date := None; created_at := None |} ].

(** [min(...)] and [max(...)] over dates: the first extremal element. *)
Definition min_date (dates : list Date.date) : option Date.date :=
  match dates with
  | [] => None
  | d :: r => Some (fold_left (fun m x => if Date.leb m x then m else x) r d)
  end.

Definition max_date (dates : list Date.date) : option Date.date :=
  match dates with
  | [] => None
  | d :: r => Some (fold_left (fun m x => if Date.leb x m then m else x) r d)
  end.

Definition sumQ (l : list Q) : Q := fold_left Qplus l 0.

(** The counting loop over the discrepancies. *)
Fixpoint count_type (disc_type : string) (by_type : list (string * nat))
  : list (string * nat) :=
  match by_type with
  | [] => [(disc_type, 1%nat)]
  | (k, n) :: r =>
      if String.eqb k disc_type then (k, S n) :: r
      else (k, n) :: count_type disc_type r
  end.

Section Engine.

Variable settings : Config.Settings.
Variable textlib : FuzzyMatcher.TextLib.
Variable filelib : StatementParser.FileLib.
Variable collab : Collaborators.

(** [self.fuzzy_matcher] *)
Definition fuzzy_matcher : FuzzyMatcher.t := FuzzyMatcher.__init__ settings.

(** [_get_ar_invoices] and [_get_ap_invoices]: the candidates of the window
    of thirty days around the batch; the simulated records when the API
    does not answer 200; nothing when anything raises (a date outside
    [date.min .. date.max] included). *)
Definition fetch_invoices (path status : string) (simulated : list Candidate)
  (transactions : list Transaction) : list Candidate :=
  let dates := map txn_date transactions in
  match min_date dates, max_date dates with
  | Some lo, Some hi =>
      let start_date := (Date.toordinal lo - 30)%Z in
      let end_date := (Date.toordinal hi + 30)%Z in
      if (start_date <? 1)%Z || (3652059 <? end_date)%Z then []
      else
        match http_get collab path start_date end_date status with
        | HttpResponse code json => if (code =? 200)%Z then json else simulated
        | HttpFailure _ => []
        end
  | _, _ => []
  end.

Definition _get_ar_invoices :=
  fetch_invoices "/api/v1/accounts-receivable" "active,overdue" simulated_ar.

Definition _get_ap_invoices :=
  fetch_invoices "/api/v1/accounts-payable" "approved,scheduled" simulated_ap.

(** The body of the loop of [_perform_automatic_matching] for one
    transaction: the match to append, if any. *)
Definition match_transaction (transaction : Transaction)
  (invoices_ar invoices_ap : list Candidate) : option TransactionMatch :=
  let transaction_amount := PyDecimal (txn_amount transaction) in
  let '(candidates, match_type) :=
    if Qltb 0 (num_value transaction_amount)
    then (invoices_ar, "receivable")
    else (invoices_ap, "payable") in
  match FuzzyMatcher.find_best_match textlib fuzzy_matcher transaction candidates with
  | Some best_match =>
      if py_geb (FuzzyMatcher.confidence best_match)
                (PyFloat (Config.auto_match_threshold settings))
      then Some {| transaction_id := txn_id transaction;
                   invoice_id := cand_id (FuzzyMatcher.invoice best_match);
                   confidence_score := FuzzyMatcher.confidence best_match;
                   match_type := match_type;
                   matched_amount := Qabs (txn_amount transaction);
                   match_reason := FuzzyMatcher.reason best_match;
                   matched_at := utcnow collab;
                   matched_by := None |}
      else None
  | None => None
  end.

Definition _perform_automatic_matching (transactions : list Transaction)
  (invoices_ar invoices_ap : list Candidate) : list TransactionMatch :=
  fold_left
    (fun matches transaction =>
       match match_transaction transaction invoices_ar invoices_ap with
       | Some m => (matches ++ [m])%list
       | None => matches
       end)
    transactions [].

Definition _generate_reconciliation_report (bank_account_id : string)
  (transactions : list Transaction) (matches : list TransactionMatch)
  (discrepancies : list Discrepancy) : Report :=
  let total_transactions := List.length transactions in
  let matched_count := List.length matches in
  let unmatched_count := (Z.of_nat total_transactions - Z.of_nat matched_count)%Z in
  let total_credits :=
    sumQ (map txn_amount (filter (fun t => Qltb 0 (txn_amount t)) transactions)) in
  let total_debits :=
    sumQ (map (fun t => Qabs (txn_amount t))
              (filter (fun t => Qltb (txn_amount t) 0) transactions)) in
  let matched_amount := sumQ (map Models.matched_amount matches) in
  let ar_matches := filter (fun m => String.eqb (match_type m) "receivable") matches in
  let ap_matches := filter (fun m => String.eqb (match_type m) "payable") matches in
  {| bank_account_id := bank_account_id;
     processed_at := utcnow collab;
     period_start := min_date (map txn_date transactions);
     period_end := max_date (map txn_date transactions);
     summary :=
       {| total_transactions := total_transactions;
          matched_count := matched_count;
          unmatched_count := unmatched_count;
          matching_rate :=
            if (0 <? total_transactions)%nat
            then inject_Z (Z.of_nat matched_count)
                 / inject_Z (Z.of_nat total_transactions) * 100
            else 0;
          total_credits := total_credits;
          total_debits := total_debits;
          matched_amount_total := matched_amount |};
     accounts_receivable :=
       {| type_matches := List.length ar_matches;
          type_amount := sumQ (map Models.matched_amount ar_matches) |};
     accounts_payable :=
       {| type_matches := List.length ap_matches;
          type_amount := sumQ (map Models.matched_amount ap_matches) |};
     discrepancies_total := List.length discrepancies;
     discrepancies_by_type :=
       fold_left (fun by_type disc => count_type (discrepancy_type disc) by_type)
                 discrepancies [];
     matches := matches;
     unmatched_transactions :=
       filter
         (fun t => negb (existsb (fun m => TxnId_eqb (transaction_id m) (txn_id t)) matches))
         transactions |}.

(** Steps 1 to 5 of [process_bank_statement]: [Ok None] is the early return
    for a statement without transactions, [Ok (Some report)] the report
    assembled by step 5. *)
Definition reconcile_statement (statement_file : StatementParser.UploadFile)
  (bank_account_id : string) : result (option Report) :=
  transactions <- StatementParser.parse_statement filelib statement_file ;;
  match transactions with
  | [] => Ok None
  | _ =>
      let invoices_ar := _get_ar_invoices transactions in
      let invoices_ap := _get_ap_invoices transactions in
      let matching_results :=
        _perform_automatic_matching transactions invoices_ar invoices_ap in
      discrepancies <- detect_discrepancies collab transactions matching_results ;;
      Ok (Some (_generate_reconciliation_report
                  bank_account_id transactions matching_results discrepancies))
  end.

(** [process_bank_statement].  After step 5 the closing log line reads
    [report['matched_count']], which is not a top-level key of the report
    (the count sits under ["summary"]): the lookup raises [KeyError] and the
    handler of the function answers with an error dictionary. *)
Definition process_bank_statement (statement_file : StatementParser.UploadFile)
  (bank_account_id : string) : Response :=
  match reconcile_statement statement_file bank_account_id with
  | Raise e => ErrorResponse (exn_str e) bank_account_id (Some (utcnow collab))
  | Ok None =>
      ErrorResponse "Nenhuma transação encontrada no extrato" bank_account_id None
  | Ok (Some report) =>
      if existsb (String.eqb "matched_count") report_keys
      then ReportResponse report
      else ErrorResponse (exn_str (KeyError "matched_count")) bank_account_id
                         (Some (utcnow collab))
  end.

End Engine.

End ReconciliationEngine.

(* ================================================================== *)
(** * Notions used in the statements *)
(* ================================================================== *)

Local Open Scope Q_scope.

(** A score of the closed unit interval. *)
Definition in_unit (x : Q) : Prop := 0 <= x /\ x <= 1.

(** What the documentation of the similarity library promises: the four
    [fuzz] ratios are integers of 0..100, [SequenceMatcher.ratio] a float of
    [0, 1]. *)
Definition lib_ranges (lib : FuzzyMatcher.TextLib) : Prop :=
  (forall a b, (0 <= FuzzyMatcher.fuzz_ratio lib a b <= 100)%Z)
  /\ (forall a b, (0 <= FuzzyMatcher.fuzz_partial_ratio lib a b <= 100)%Z)
  /\ (forall a b, (0 <= FuzzyMatcher.fuzz_token_sort_ratio lib a b <= 100)%Z)
  /\ (forall a b, (0 <= FuzzyMatcher.fuzz_token_set_ratio lib a b <= 100)%Z)
  /\ (forall a b, in_unit (FuzzyMatcher.SequenceMatcher_ratio lib a b)).



Local Open Scope string_scope.

(** ** Notions for the parser *)

(** The text [_parse_amount] keeps of a cell: digits, comma, point, signs. *)
Definition amount_clean (amount_str : string) : string :=
  str_filter (fun c => is_digit c || Ascii.eqb c "," || Ascii.eqb c "."
                       || Ascii.eqb c "-" || Ascii.eqb c "+")
             amount_str.

(** [float(text)] as [_parse_amount] ends: the value, or its [ValueError]. *)
Definition float_or_error (amount_str text : string) : result Q :=
  match StatementParser.py_float text with
  | Some x => Ok x
  | None => Raise (ValueError ("Não foi possível fazer parse do valor: " ++ amount_str))
  end.

(** Two transactions of the same date, amount and first [n] characters of
    description. *)
Definition same_movement (n : nat) (a b : Transaction) : bool :=
  Date.eqb (txn_date a) (txn_date b)
  && Qeq_bool (txn_amount a) (txn_amount b)
  && String.eqb (str_take n (txn_description a)) (str_take n (txn_description b)).

(** No two transactions of the list are the same movement. *)
Fixpoint collapsed (n : nat) (l : list Transaction) : bool :=
  match l with
  | [] => true
  | x :: r => negb (existsb (same_movement n x) r) && collapsed n r
  end.

Fixpoint sorted_by_date (l : list Transaction) : bool :=
  match l with
  | [] => true
  | x :: r =>
      match r with
      | [] => true
      | y :: _ => Date.leb (txn_date x) (txn_date y) && sorted_by_date r
      end
  end.

(** The rows of a frame with their index. *)
Definition indexed_rows (df : StatementParser.DataFrame) : list (nat * list string) :=
  combine (seq 0 (List.length (StatementParser.rows df))) (StatementParser.rows df).

(** The transactions of the rows that parse, in the order of the rows. *)
Definition rows_in_order (column_mapping : StatementParser.ColumnMapping)
  (df : StatementParser.DataFrame) : list Transaction :=
  flat_map
    (fun ir =>
       match StatementParser.csv_row column_mapping (StatementParser.columns df)
               (fst ir) (snd ir) with
       | Ok txn => [txn]
       | Raise _ => []
       end)
    (indexed_rows df).

(* ================================================================== *)
(** * Sample data *)
(* ================================================================== *)

Module Fixtures.

Import FuzzyMatcher.
Local Open Scope string_scope.
Local Open Scope Q_scope.

(** A small similarity library for the examples: the ratios compare for
    equality, the reference search returns the words made of six or more
    digits, dates are read as [YYYY-MM-DD]. *)
Definition exact_ratio (a b : string) : Z := if String.eqb a b then 100%Z else 0%Z.

Definition digit_words (pattern text : string) : list string :=
  if String.eqb pattern "\b\d{6,}\b"
  then filter (fun w => StatementParser.all_digits w && (6 <=? String.length w)%nat)
              (words text)
  else [].

Definition textlib : TextLib := {|
  fuzz_ratio := exact_ratio;
  fuzz_partial_ratio := exact_ratio;
  fuzz_token_sort_ratio := exact_ratio;
  fuzz_token_set_ratio := exact_ratio;
  SequenceMatcher_ratio := fun a b => if String.eqb a b then 1 else 0;
  re_findall := digit_words;
  fromisoformat := fun s => StatementParser.strptime s "%Y-%m-%d"
|}.

Definition matcher : FuzzyMatcher.t := __init__ Config.settings.

Definition pix_transaction : Transaction := {|
  txn_id := IdText "txn-1";
  txn_date := Date.mkdate 2024 2 10;
  txn_amount := 1000.00;
  txn_description := "PIX RECEBIDO CLIENTE ABC LTDA 452100";
  txn_type := "credit";
  txn_reference := "";
  txn_account_id := None;
  txn_source := "csv";
  txn_raw_data := []
|}.

Definition receivable (id : string) : Candidate := {|
  cand_id := id;
  cand_amount := Some 1000.00;
  customer_name := Some "PIX Recebido Cliente ABC Ltda";
  supplier_name := None;
  invoice_number := Some "452100";
  due_date := Some (DateStr "2024-02-10");
  invoice_date := None;
  payment_date := None;
  created_at := None
|}.

(** A transaction of amount zero and a ledger record within the absolute
    tolerance of it. *)
Definition zero_transaction : Transaction := {|
  txn_id := IdText "txn-0";
  txn_date := Date.mkdate 2024 1 19;
  txn_amount := 0;
  txn_description := "PAGAMENTO FORNECEDOR XYZ 778899";
  txn_type := "debit";
  txn_reference := "";
  txn_account_id := None;
  txn_source := "csv";
  txn_raw_data := []
|}.

Definition small_invoice (id : string) : Candidate := {|
  cand_id := id;
  cand_amount := Some 5;
  customer_name := None;
  supplier_name := Some "Pagamento Fornecedor XYZ";
  invoice_number := Some "778899";
  due_date := Some (DateStr "2024-01-19");
  invoice_date := None;
  payment_date := None;
  created_at := None
|}.

(** A statement whose first and third rows are the same movement and whose
    rows are not in the order of their dates: the bytes, and the frame
    pandas makes of them (the amounts read as floats). *)
Definition repeated_text : string :=
  "data,valor,descricao
20/01/2024,100.00,PIX RECEBIDO
18/01/2024,50.00,TED RECEBIDA
20/01/2024,100.00,PIX RECEBIDO
".

Definition repeated_frame : StatementParser.DataFrame := {|
  StatementParser.columns := ["data"; "valor"; "descricao"];
  StatementParser.rows :=
    [ ["20/01/2024"; "100.0"; "PIX RECEBIDO"];
      ["18/01/2024"; "50.0"; "TED RECEBIDA"];
      ["20/01/2024"; "100.0"; "PIX RECEBIDO"] ]
|}.

Definition filelib : StatementParser.FileLib := {|
  StatementParser.OFX_AVAILABLE := true;
  StatementParser.read_csv :=
    fun content _ =>
      if String.eqb content repeated_text then Ok repeated_frame
      else Raise (LibraryError "No columns to parse from file");
  StatementParser.OfxParser_parse := fun _ => Raise (LibraryError "not an OFX file")
|}.

Definition csv_upload : StatementParser.UploadFile := {|
  StatementParser.filename := "extrato.csv";
  StatementParser.content := repeated_text
|}.

Definition empty_pdf_upload : StatementParser.UploadFile := {|
  StatementParser.filename := "extrato.pdf";
  StatementParser.content := ""
|}.

Definition collaborators : ReconciliationEngine.Collaborators := {|
  ReconciliationEngine.http_get :=
    fun _ _ _ _ => ReconciliationEngine.HttpFailure (LibraryError "connection refused");
  ReconciliationEngine.detect_discrepancies := fun _ _ => Ok [];
  ReconciliationEngine.utcnow := 0
|}.

End Fixtures.

(* ================================================================== *)
(** * Further sample data *)
(* ================================================================== *)

Module Samples.

Import FuzzyMatcher.
Local Open Scope string_scope.
Local Open Scope Q_scope.

(** The receivable of the examples, due ten days after the transaction. *)
Definition late_receivable : Candidate := {|
  cand_id := "ar-3";
  cand_amount := Some 1000.00;
  customer_name := Some "PIX Recebido Cliente ABC Ltda";
  supplier_name := None;
  invoice_number := Some "452100";
  due_date := Some (DateStr "2024-02-20");
  invoice_date := None;
  payment_date := None;
  created_at := None
|}.

(** The same receivable without any date. *)
Definition undated_receivable : Candidate := {|
  cand_id := "ar-4";
  cand_amount := Some 1000.00;
  customer_name := Some "PIX Recebido Cliente ABC Ltda";
  supplier_name := None;
  invoice_number := Some "452100";
  due_date := None;
  invoice_date := None;
  payment_date := None;
  created_at := None
|}.

Definition candidates : list Candidate :=
  [late_receivable; Fixtures.receivable "ar-1"; Fixtures.receivable "ar-2"].

End Samples.

(** The labels [_determine_primary_reason] gives to a single factor, and to
    a combination of factors. *)
Definition factor_reasons : list string :=
  ["valor_exato"%string; "valor_similar"; "data_exata"; "data_proxima";
   "descricao_similar"; "referencia_match"].

Definition combination_reasons : list string :=
  ["valor_e_data"%string; "valor_e_descricao"; "descricao_e_data"; "combinacao_fatores"].


(* ================================================================== *)
(** * main.py: the upload endpoint *)
(* ================================================================== *)

Module Main.

Local Open Scope string_scope.

(** The JSON answer of [upload_bank_statement]. *)
Inductive UploadResponse : Type :=
| UploadRejected (error : string) (supported_formats : list string)
| UploadProcessing (message filename bank_account_id status : string).

(** [upload_bank_statement]: the answer, and the background task added (the
    arguments [process_bank_statement] will be run with), if any. *)
Definition upload_bank_statement (file : StatementParser.UploadFile)
  (bank_account_id : string)
  : UploadResponse * option (StatementParser.UploadFile * string) :=
  let name := lower (StatementParser.filename file) in
  if negb (endswith name ".ofx" || endswith name ".csv" || endswith name ".pdf") then
    (UploadRejected "Formato não suportado. Use OFX, CSV ou PDF" ["OFX"; "CSV"; "PDF"],
     None)
  else
    (UploadProcessing "Extrato enviado para processamento"
       (StatementParser.filename file) bank_account_id "processing",
     Some (file, bank_account_id)).

End Main.

(* ================================================================== *)
(** * Sample statements *)
(* ================================================================== *)

Module Statements.

Import StatementParser.
Local Open Scope string_scope.

(** A library in which pandas reads the one text [text] as the frame [df]. *)
Definition reading (text : string) (df : DataFrame) : FileLib := {|
  OFX_AVAILABLE := true;
  read_csv :=
    fun content _ =>
      if String.eqb content text then Ok df
      else Raise (LibraryError "No columns to parse from file");
  OfxParser_parse := fun _ => Raise (LibraryError "not an OFX file")
|}.

(** A statement whose header is capitalised. *)
Definition capitalised_text : string :=
  "Data,Valor,Descricao
20/01/2024,100.00,PIX RECEBIDO
".

Definition capitalised_frame : DataFrame := {|
  columns := ["Data"; "Valor"; "Descricao"];
  rows := [ ["20/01/2024"; "100.0"; "PIX RECEBIDO"] ]
|}.

(** A statement without a description column. *)
Definition bare_text : string :=
  "data,valor
20/01/2024,100.00
18/01/2024,50.00
".

Definition bare_frame : DataFrame := {|
  columns := ["data"; "valor"];
  rows := [ ["20/01/2024"; "100.0"]; ["18/01/2024"; "50.0"] ]
|}.

Definition upload (name text : string) : UploadFile :=
  {| filename := name; content := text |}.

(** An OFX statement of one account and two movements, as ofxparse
    returns it. *)
Definition ofx_accounts : list OfxAccount :=
  [ {| ofx_account_id := "12345-6";
       ofx_transactions :=
         [ {| ofx_id := "202401180001"; ofx_date := Date.mkdate 2024 1 18;
              ofx_amount := 1500.00; ofx_memo := "TED RECEBIDA";
              ofx_payee := ""; ofx_checknum := ""; ofx_trntype := "credit" |};
           {| ofx_id := "202401190002"; ofx_date := Date.mkdate 2024 1 19;
              ofx_amount := 0; ofx_memo := ""; ofx_payee := "";
              ofx_checknum := "000123"; ofx_trntype := "other" |} ] |} ].

Definition ofx_lib : FileLib := {|
  OFX_AVAILABLE := true;
  read_csv := fun _ _ => Raise (LibraryError "No columns to parse from file");
  OfxParser_parse := fun _ => Ok ofx_accounts
|}.

End Statements.

(* ================================================================== *)
(** * Properties *)
(* ================================================================== *)

(** ** Boolean tests on rationals *)

Lemma Qeq_bool_false (x y : Q) : ~ x == y -> Qeq_bool x y = false.
Proof.
  intro H. destruct (Qeq_bool x y) eqn:E; [|reflexivity].
  apply Qeq_bool_iff in E. contradiction.
Qed.

Lemma Qeq_bool_true (x y : Q) : x == y -> Qeq_bool x y = true.
Proof. apply Qeq_bool_iff. Qed.

Lemma Qle_bool_true (x y : Q) : x <= y -> Qle_bool x y = true.
Proof. apply Qle_bool_iff. Qed.

Lemma Qle_bool_false (x y : Q) : y < x -> Qle_bool x y = false.
Proof.
  intro H. destruct (Qle_bool x y) eqn:E; [|reflexivity].
  apply Qle_bool_iff in E. exfalso. apply (Qlt_not_le _ _ H E).
Qed.

Lemma Qltb_true (x y : Q) : x < y -> Qltb x y = true.
Proof. intro H. unfold Qltb. now rewrite Qle_bool_false. Qed.

Lemma Qltb_false (x y : Q) : y <= x -> Qltb x y = false.
Proof. intro H. unfold Qltb. now rewrite Qle_bool_true. Qed.

Lemma Qltb_spec (x y : Q) : Qltb x y = true <-> x < y.
Proof.
  split; [|apply Qltb_true].
  unfold Qltb. destruct (Qle_bool y x) eqn:E; [discriminate|].
  intros _. apply Qnot_le_lt. intro H. apply Qle_bool_iff in H. congruence.
Qed.

Lemma Qltb_total (x y : Q) : Qltb x y = false <-> y <= x.
Proof.
  split; [|apply Qltb_false].
  unfold Qltb. destruct (Qle_bool y x) eqn:E; [|discriminate].
  intros _. now apply Qle_bool_iff.
Qed.

Lemma fmax_spec (x y : Q) : (fmax x y = x /\ y <= x) \/ (fmax x y = y /\ x < y).
Proof.
  unfold fmax. destruct (Qltb x y) eqn:E.
  - right. split; [reflexivity|]. now apply Qltb_spec.
  - left. split; [reflexivity|]. now apply Qltb_total.
Qed.

Lemma fmin_spec (x y : Q) : (fmin x y = x /\ x <= y) \/ (fmin x y = y /\ y < x).
Proof.
  unfold fmin. destruct (Qltb y x) eqn:E.
  - right. split; [reflexivity|]. now apply Qltb_spec.
  - left. split; [reflexivity|]. now apply Qltb_total.
Qed.

(** ** The amount score on the Decimals of the caller *)

Section AmountScore.

Import FuzzyMatcher.
Local Open Scope Q_scope.

Variable self : FuzzyMatcher.t.
Variables t c : Q.
Hypothesis candidate_nonzero : ~ c == 0.

Ltac amount_unfold :=
  unfold _calculate_amount_score, py_sub, py_mul, py_div, py_binop, bind,
         py_abs, py_leb, py_min, py_max, py_gtb, py_ltb, num_value;
  cbv beta iota;
  rewrite (Qeq_bool_false candidate_nonzero);
  cbv beta iota.

Lemma amount_score_exact :
  Qabs (t - c) == 0 ->
  _calculate_amount_score self (PyDecimal t) (PyDecimal c) = Ok (PyFloat 1.0).
Proof.
  intro H. amount_unfold. now rewrite (Qeq_bool_true H).
Qed.

Lemma amount_score_within_absolute :
  ~ Qabs (t - c) == 0 -> Qabs (t - c) <= amount_tolerance_absolute self ->
  _calculate_amount_score self (PyDecimal t) (PyDecimal c) = Ok (PyFloat 0.95).
Proof.
  intros H0 H. amount_unfold.
  rewrite (Qeq_bool_false H0). now rewrite (Qle_bool_true H).
Qed.

(** Inside the percentage tolerance the quotient of the Decimal
    [percent_diff] by the float tolerance is refused. *)
Lemma amount_score_within_percent_raises :
  ~ Qabs (t - c) == 0 ->
  amount_tolerance_absolute self < Qabs (t - c) ->
  Qabs (t - c) / c <= amount_tolerance_percent self ->
  _calculate_amount_score self (PyDecimal t) (PyDecimal c)
  = Raise (TypeError "unsupported operand type(s) for /: 'decimal.Decimal' and 'float'").
Proof.
  intros H0 Ha Hp. amount_unfold.
  rewrite (Qeq_bool_false H0), (Qle_bool_false Ha), (Qle_bool_true Hp).
  reflexivity.
Qed.

(** Beyond both tolerances and below 0.3 the difference of the float 0.3
    and the Decimal [percent_diff] is refused. *)
Lemma amount_score_residual_raises :
  ~ Qabs (t - c) == 0 ->
  amount_tolerance_absolute self < Qabs (t - c) ->
  amount_tolerance_percent self < Qabs (t - c) / c ->
  Qabs (t - c) / c < 0.3 ->
  _calculate_amount_score self (PyDecimal t) (PyDecimal c)
  = Raise (TypeError "unsupported operand type(s) for -: 'float' and 'decimal.Decimal'").
Proof.
  intros H0 Ha Hp Hr. amount_unfold.
  rewrite (Qeq_bool_false H0), (Qle_bool_false Ha), (Qle_bool_false Hp).
  rewrite (Qle_bool_false Hr). reflexivity.
Qed.

Lemma amount_score_residual_zero :
  ~ Qabs (t - c) == 0 ->
  amount_tolerance_absolute self < Qabs (t - c) ->
  amount_tolerance_percent self < Qabs (t - c) / c ->
  0.3 <= Qabs (t - c) / c ->
  _calculate_amount_score self (PyDecimal t) (PyDecimal c) = Ok (PyFloat 0.0).
Proof.
  intros H0 Ha Hp Hr. amount_unfold.
  rewrite (Qeq_bool_false H0), (Qle_bool_false Ha), (Qle_bool_false Hp).
  rewrite (Qle_bool_true Hr). reflexivity.
Qed.

End AmountScore.

Lemma amount_score_zero_candidate (self : FuzzyMatcher.t) (t c : Q) :
  c == 0 ->
  FuzzyMatcher._calculate_amount_score self (PyDecimal t) (PyDecimal c) = Ok (PyFloat 0.0).
Proof.
  intro H. unfold FuzzyMatcher._calculate_amount_score, num_value.
  now rewrite (Qeq_bool_true H).
Qed.

(** Every value the amount score returns on Decimals is one of the three
    constants. *)
Lemma amount_score_values (self : FuzzyMatcher.t) (t c : Q) (s : pynum) :
  FuzzyMatcher._calculate_amount_score self (PyDecimal t) (PyDecimal c) = Ok s ->
  s = PyFloat 0.0 \/ s = PyFloat 0.95 \/ s = PyFloat 1.0.
Proof.
  intro H.
  destruct (Qeq_dec c 0) as [Hc|Hc].
  { rewrite (amount_score_zero_candidate self t Hc) in H. injection H as <-. auto. }
  destruct (Qeq_dec (Qabs (t - c)) 0) as [H0|H0].
  { rewrite (amount_score_exact self Hc H0) in H. injection H as <-. auto. }
  destruct (Qlt_le_dec (FuzzyMatcher.amount_tolerance_absolute self) (Qabs (t - c)))
    as [Ha|Ha].
  2:{ rewrite (amount_score_within_absolute self Hc H0 Ha) in H. injection H as <-. auto. }
  destruct (Qlt_le_dec (FuzzyMatcher.amount_tolerance_percent self) (Qabs (t - c) / c))
    as [Hp|Hp].
  2:{ rewrite (amount_score_within_percent_raises self Hc H0 Ha Hp) in H. discriminate. }
  destruct (Qlt_le_dec (Qabs (t - c) / c) 0.3) as [Hr|Hr].
  - rewrite (amount_score_residual_raises self Hc H0 Ha Hp Hr) in H. discriminate.
  - rewrite (amount_score_residual_zero self Hc H0 Ha Hp Hr) in H. injection H as <-. auto.
Qed.

(** ** C1: the boundary of the absolute tolerance *)

Section ToleranceBoundary.

Import FuzzyMatcher.
Local Open Scope Q_scope.





End ToleranceBoundary.

(** ** C3: the residual beyond the percentage tolerance *)

Section Residual.

Import FuzzyMatcher.
Local Open Scope Q_scope.




End Residual.

(** ** C9: the date score *)

Section DateScore.

Import FuzzyMatcher.
Local Open Scope Q_scope.


End DateScore.

(** ** C5: every score lies in the unit interval *)

Section ScoreBounds.

Import FuzzyMatcher.
Local Open Scope Q_scope.

Lemma percent_in_unit (z : Z) : (0 <= z <= 100)%Z -> in_unit (inject_Z z / 100.0).
Proof.
  intros [H0 H1]. unfold in_unit.
  rewrite Zle_Qle in H0. rewrite Zle_Qle in H1.
  change (inject_Z 0) with 0 in H0. change (inject_Z 100) with 100 in H1.
  assert (E : inject_Z z / 100.0 == inject_Z z * (1 # 100)).
  { unfold Qdiv. apply Qmult_comp; reflexivity. }
  rewrite E. split; lra.
Qed.

Lemma date_score_in_unit (self : FuzzyMatcher.t) (txn_date : Date.date)
  (candidate_date : option Date.date) :
  in_unit (_calculate_date_score self txn_date candidate_date).
Proof.
  unfold _calculate_date_score, in_unit.
  destruct candidate_date as [cd|]; [|split; intro E; discriminate E].
  set (days := Z.abs (Date.days_between txn_date cd)).
  assert (Hd : (0 <= days)%Z) by apply Z.abs_nonneg.
  destruct (days =? 0)%Z; [split; intro E; discriminate E|].
  destruct (days <=? 3)%Z; [split; intro E; discriminate E|].
  destruct (days <=? 7)%Z eqn:E7; [split; intro E; discriminate E|].
  apply Z.leb_gt in E7.
  destruct (days <=? date_tolerance_after self)%Z.
  - assert (H : 0 <= inject_Z (days - 7)).
    { change 0 with (inject_Z 0). rewrite <- Zle_Qle. lia. }
    destruct (fmax_spec 0.0 (0.8 - inject_Z (days - 7) * 0.1)) as [[-> _]|[-> L]].
    + split; intro E; discriminate E.
    + split; lra.
  - assert (H : 0 <= inject_Z days).
    { change 0 with (inject_Z 0). now rewrite <- Zle_Qle. }
    destruct (fmin_spec 0.2 (inject_Z days * 0.01)) as [[Em _]|[Em _]];
      rewrite Em;
      match goal with
      | |- context [fmax ?a ?b] => destruct (fmax_spec a b) as [[-> _]|[-> L]]
      end; try (split; intro E; discriminate E); split; lra.
Qed.

Lemma keyword_bonus_fold_nonneg (p : string -> bool) (keywords : list string) (init : Q) :
  0 <= init ->
  0 <= fold_left (fun bonus keyword => if p keyword then bonus + 0.05 else bonus)
                 keywords init.
Proof.
  revert init. induction keywords as [|k r IH]; intros init H; cbn [fold_left].
  - exact H.
  - apply IH. destruct (p k); lra.
Qed.

Lemma keyword_bonus_bounds (txn_desc candidate_desc : string) :
  0 <= _calculate_keyword_bonus txn_desc candidate_desc <= 0.2.
Proof.
  unfold _calculate_keyword_bonus.
  match goal with
  | |- context [fmin 0.2 ?b] =>
      assert (H : 0 <= b);
      [ apply (keyword_bonus_fold_nonneg
                 (fun keyword => contains keyword (lower txn_desc)
                                 && contains keyword (lower candidate_desc)));
        intro E; discriminate E
      | destruct (fmin_spec 0.2 b) as [[-> L]|[-> L]] ]
  end.
  - split; intro E; discriminate E.
  - split; lra.
Qed.

Lemma fold_fmax_in_unit (l : list Q) (x : Q) :
  in_unit x -> Forall in_unit l -> in_unit (fold_left fmax l x).
Proof.
  revert x. induction l as [|y r IH]; intros x Hx Hl; cbn [fold_left].
  - exact Hx.
  - inversion Hl; subst. apply IH; trivial.
    destruct (fmax_spec x y) as [[-> _]|[-> _]]; trivial.
Qed.

Variable lib : TextLib.
Hypothesis ranges : lib_ranges lib.

Lemma description_score_in_unit (txn_desc candidate_desc : string) :
  in_unit (_calculate_description_score lib txn_desc candidate_desc).
Proof.
  destruct ranges as (R1 & R2 & R3 & R4 & R5).
  unfold _calculate_description_score.
  destruct (negb (truthy txn_desc) || negb (truthy candidate_desc)).
  { split; intro E; discriminate E. }
  match goal with
  | |- in_unit (fmin 1.0 (?m + ?b)) =>
      assert (Hm : in_unit m);
      [ unfold list_max; apply fold_fmax_in_unit;
        [ apply percent_in_unit, R1
        | apply Forall_cons; [apply percent_in_unit, R2|];
          apply Forall_cons; [apply percent_in_unit, R3|];
          apply Forall_cons; [apply percent_in_unit, R4|];
          apply Forall_cons; [apply R5|apply Forall_nil] ]
      | pose proof (keyword_bonus_bounds txn_desc candidate_desc) as Hb;
        destruct (fmin_spec 1.0 (m + b)) as [[-> _]|[-> L]] ]
  end.
  - split; intro E; discriminate E.
  - destruct Hm, Hb. split; lra.
Qed.

Lemma reference_scan_candidate_in_unit (t_ref : string) (candidate_ref : list string) (s : Q) :
  reference_scan_candidate lib t_ref candidate_ref = Some s -> in_unit s.
Proof.
  destruct ranges as (R1 & _).
  induction candidate_ref as [|c_ref rest IH]; cbn [reference_scan_candidate]; [discriminate|].
  destruct (String.eqb t_ref c_ref).
  { intro E. injection E as <-. split; intro E; discriminate E. }
  destruct ((4 <=? String.length t_ref)%nat && (4 <=? String.length c_ref)%nat); trivial.
  destruct (Qltb 0.8 (inject_Z (fuzz_ratio lib t_ref c_ref) / 100.0)); trivial.
  intro E. injection E as <-. apply percent_in_unit, R1.
Qed.

Lemma reference_scan_in_unit (txn_ref candidate_ref : list string) (s : Q) :
  reference_scan lib txn_ref candidate_ref = Some s -> in_unit s.
Proof.
  induction txn_ref as [|t_ref rest IH]; cbn [reference_scan]; [discriminate|].
  destruct (reference_scan_candidate lib t_ref candidate_ref) eqn:E; trivial.
  intro H. injection H as <-. eapply reference_scan_candidate_in_unit, E.
Qed.

Lemma reference_score_in_unit (transaction : Transaction) (candidate : Candidate) :
  in_unit (_calculate_reference_score lib transaction candidate).
Proof.
  unfold _calculate_reference_score.
  destruct (_extract_reference_numbers lib _) as [|t tr];
    [split; intro E; discriminate E|].
  destruct (_extract_reference_numbers lib _) as [|c cr];
    [split; intro E; discriminate E|].
  destruct (reference_scan lib (t :: tr) (c :: cr)) eqn:E.
  - eapply reference_scan_in_unit, E.
  - split; intro H; discriminate H.
Qed.

Lemma amount_score_in_unit (self : FuzzyMatcher.t) (t c : Q) (s : pynum) :
  _calculate_amount_score self (PyDecimal t) (PyDecimal c) = Ok s ->
  in_unit (num_value s).
Proof.
  intro H. destruct (amount_score_values self t c H) as [-> | [-> | ->]];
    split; intro E; discriminate E.
Qed.

(** A float operand never reaches a score: the difference with the Decimal
    candidate amount is refused. *)
Lemma amount_score_float_raises (self : FuzzyMatcher.t) (t c : Q) (s : pynum) :
  _calculate_amount_score self (PyFloat t) (PyDecimal c) = Ok s ->
  s = PyFloat 0.0.
Proof.
  unfold _calculate_amount_score, num_value.
  destruct (Qeq_bool c 0); [intro E; now injection E as <-|discriminate].
Qed.

(** C5.  Whatever the matcher, the transaction and the candidate: the date,
    description and reference scores lie in [0, 1]; so does every amount
    score the scorer returns; and whenever [_calculate_match_score] returns
    its dictionary, the four scores of the breakdown and the weighted total
    lie in [0, 1]. *)
Theorem score_bounds (self : FuzzyMatcher.t) (transaction : Transaction)
  (candidate : Candidate) (txn_amount : pynum) (txn_date : Date.date) (txn_desc : string) :
  in_unit (_calculate_date_score self txn_date (_parse_candidate_date lib candidate))
  /\ (forall candidate_desc, in_unit (_calculate_description_score lib txn_desc candidate_desc))
  /\ in_unit (_calculate_reference_score lib transaction candidate)
  /\ (forall a c s,
        _calculate_amount_score self (PyDecimal a) (PyDecimal c) = Ok s ->
        in_unit (num_value s))
  /\ (forall score_data,
        _calculate_match_score lib self transaction candidate txn_amount txn_date txn_desc
        = Ok score_data ->
        in_unit (num_value (amount_score (breakdown score_data)))
        /\ in_unit (num_value (date_score (breakdown score_data)))
        /\ in_unit (num_value (description_score (breakdown score_data)))
        /\ in_unit (num_value (reference_score (breakdown score_data)))
        /\ in_unit (num_value (total_score score_data))).
Proof.
  split; [apply date_score_in_unit|].
  split; [intro; apply description_score_in_unit|].
  split; [apply reference_score_in_unit|].
  split; [intros a c s; apply amount_score_in_unit|].
  intros score_data H. unfold _calculate_match_score in H.
  set (cd := _parse_candidate_date lib candidate) in *.
  set (cdesc := _normalize_description _) in *.
  set (camt := get (cand_amount candidate) 0) in *.
  pose proof (date_score_in_unit self txn_date cd) as Hd.
  pose proof (description_score_in_unit txn_desc cdesc) as Hs.
  pose proof (reference_score_in_unit transaction candidate) as Hr.
  destruct (_calculate_amount_score self txn_amount (PyDecimal camt)) as [a|e] eqn:Ea;
    [|discriminate H].
  assert (Ha : in_unit (num_value a) /\ exists q, a = PyFloat q).
  { destruct txn_amount as [x|x].
    - split; [eapply amount_score_in_unit, Ea|].
      destruct (amount_score_values self x camt Ea) as [-> | [-> | ->]]; eauto.
    - rewrite (amount_score_float_raises self x camt Ea).
      split; [split; intro E; discriminate E|eauto]. }
  destruct Ha as [Ha [q ->]]. cbn in H. injection H as <-. cbn.
  repeat split; try apply Ha; try apply Hd; try apply Hs; try apply Hr;
    destruct Ha, Hd, Hs, Hr; cbn in *; lra.
Qed.

End ScoreBounds.

(** ** C6, C8: the search for the best candidate *)

Lemma fold_left_invariant {A B : Type} (f : A -> B -> A) (P : A -> Prop) (l : list B) :
  (forall a b, In b l -> P a -> P (f a b)) ->
  forall a, P a -> P (fold_left f l a).
Proof.
  induction l as [|b r IH]; intros Hf a Ha; cbn [fold_left]; trivial.
  apply IH.
  - intros a' b' Hin. apply Hf. now right.
  - apply Hf; trivial. now left.
Qed.

Section BestMatch.

Import FuzzyMatcher.
Local Open Scope Q_scope.

Variable lib : TextLib.
Variable self : FuzzyMatcher.t.
Variable transaction : Transaction.

Let amount := py_abs (PyDecimal (txn_amount transaction)).
Let day := txn_date transaction.
Let desc := _normalize_description (txn_description transaction).
Let score (x : Candidate) := _calculate_match_score lib self transaction x amount day desc.
Let step := find_best_match_step lib self transaction amount day desc.

Lemma find_best_match_fold (candidates : list Candidate) :
  find_best_match lib self transaction candidates
  = fst (fold_left step candidates (None, PyFloat 0.0)).
Proof. destruct candidates; reflexivity. Qed.





(** The candidate returned comes from the list and reaches the floor. *)
Lemma find_best_match_sound (candidates : list Candidate) (bm : BestMatch) :
  find_best_match lib self transaction candidates = Some bm ->
  In (invoice bm) candidates
  /\ similarity_threshold self <= num_value (confidence bm).
Proof.
  rewrite find_best_match_fold.
  set (P := fun st : search_state =>
              forall bm, fst st = Some bm ->
                         In (invoice bm) candidates
                         /\ similarity_threshold self <= num_value (confidence bm)).
  assert (H : P (fold_left step candidates (None, PyFloat 0.0))).
  { apply fold_left_invariant.
    - intros [b bs] x Hin Hst. unfold step, find_best_match_step.
      fold amount day desc. fold (score x).
      destruct (score x) as [sx|e]; trivial.
      destruct (py_gtb _ _) eqn:E1; cbn [andb]; trivial.
      destruct (py_geb _ _) eqn:E2; trivial.
      intros bm' Hbm. cbn [fst] in Hbm. injection Hbm as <-. cbn.
      split; trivial. unfold py_geb, py_leb in E2. cbn [num_value] in E2.
      now apply Qle_bool_iff.
    - intros b Hb. discriminate Hb. }
  intro E. apply H, E.
Qed.

End BestMatch.

Section BestMatchExamples.

Import FuzzyMatcher.
Local Open Scope Q_scope.

Lemma fixture_ranges : lib_ranges Fixtures.textlib.
Proof.
  unfold lib_ranges, Fixtures.textlib, Fixtures.exact_ratio, in_unit. cbn.
  repeat split; try (destruct (String.eqb a b); lia);
    destruct (String.eqb a b); intro E; discriminate E.
Qed.

Lemma score_bounds_witness :
  exists score_data,
    _calculate_match_score Fixtures.textlib Fixtures.matcher
      Fixtures.pix_transaction (Fixtures.receivable "ar-1")
      (PyDecimal 1000.00) (Date.mkdate 2024 2 10) "pix recebido cliente abc ltda 452100"
    = Ok score_data
    /\ in_unit (num_value (amount_score (breakdown score_data)))
    /\ in_unit (num_value (date_score (breakdown score_data)))
    /\ in_unit (num_value (description_score (breakdown score_data)))
    /\ in_unit (num_value (reference_score (breakdown score_data)))
    /\ in_unit (num_value (total_score score_data)).
Proof.
  eexists. split; [vm_compute; reflexivity|].
  apply (score_bounds fixture_ranges Fixtures.matcher Fixtures.pix_transaction
           (Fixtures.receivable "ar-1") (PyDecimal 1000.00) (Date.mkdate 2024 2 10)
           "pix recebido cliente abc ltda 452100").
  vm_compute. reflexivity.
Defined.


End BestMatchExamples.

(** ** C8, C10: the decision of the engine *)

Section AutomaticMatching.

Import FuzzyMatcher ReconciliationEngine.
Local Open Scope Q_scope.

Variable settings : Config.Settings.
Variable lib : TextLib.
Variable collab : Collaborators.

Let decide (invoices_ar invoices_ap : list Candidate) (transaction : Transaction) :=
  match_transaction settings lib collab transaction invoices_ar invoices_ap.

Lemma matching_fold (f : Transaction -> option TransactionMatch)
  (transactions : list Transaction) (acc : list TransactionMatch) :
  fold_left (fun matches transaction =>
               match f transaction with
               | Some m => (matches ++ [m])%list
               | None => matches
               end) transactions acc
  = (acc ++ flat_map (fun transaction =>
                        match f transaction with Some m => [m] | None => [] end)
                     transactions)%list.
Proof.
  revert acc. induction transactions as [|t r IH]; intro acc; cbn [fold_left flat_map].
  - now rewrite app_nil_r.
  - rewrite IH. destruct (f t); [now rewrite <- app_assoc|reflexivity].
Qed.

(** The candidate set the engine hands to the scorer. *)
Let routed (invoices_ar invoices_ap : list Candidate) (transaction : Transaction) :=
  if Qltb 0 (txn_amount transaction) then invoices_ar else invoices_ap.

Lemma match_transaction_cases (transaction : Transaction)
  (invoices_ar invoices_ap : list Candidate) :
  match find_best_match lib (fuzzy_matcher settings) transaction
          (routed invoices_ar invoices_ap transaction) with
  | Some best =>
      if Qle_bool (Config.auto_match_threshold settings) (num_value (confidence best))
      then exists m,
             decide invoices_ar invoices_ap transaction = Some m
             /\ transaction_id m = txn_id transaction
             /\ invoice_id m = cand_id (invoice best)
             /\ confidence_score m = confidence best
             /\ match_type m
                = (if Qltb 0 (txn_amount transaction) then "receivable" else "payable")%string
      else decide invoices_ar invoices_ap transaction = None
  | None => decide invoices_ar invoices_ap transaction = None
  end.
Proof.
  unfold decide, match_transaction, routed. cbn [num_value].
  destruct (Qltb 0 (txn_amount transaction));
    (destruct (find_best_match _ _ _ _) as [best|]; [|reflexivity]);
    unfold py_geb, py_leb; cbn [num_value];
    (destruct (Qle_bool _ _); [|reflexivity]);
    eexists; repeat split.
Qed.

(** C8.  The matches of a batch are, transaction by transaction and in
    order, the outcome of one decision; for each transaction a match is
    recorded exactly when the scorer returns a best candidate whose
    confidence reaches the auto-match threshold, and it carries that
    candidate and confidence; whatever the scorer returns has reached the
    similarity floor; and a transaction whose best candidate stays below the
    auto-match threshold, or that has none, gets no match. *)
Theorem automatic_match_iff_threshold
  (transactions : list Transaction) (invoices_ar invoices_ap : list Candidate) :
  _perform_automatic_matching settings lib collab transactions invoices_ar invoices_ap
  = flat_map
      (fun transaction =>
         match match_transaction settings lib collab transaction invoices_ar invoices_ap with
         | Some m => [m]
         | None => []
         end)
      transactions
  /\
  forall transaction : Transaction,
    let candidates :=
      if Qltb 0 (txn_amount transaction) then invoices_ar else invoices_ap in
    let best := find_best_match lib (fuzzy_matcher settings) transaction candidates in
    let recorded :=
      match_transaction settings lib collab transaction invoices_ar invoices_ap in
    ((exists m, recorded = Some m)
     <-> (exists b, best = Some b
                    /\ Config.auto_match_threshold settings <= num_value (confidence b)))
    /\ (forall m, recorded = Some m ->
          exists b, best = Some b
                    /\ transaction_id m = txn_id transaction
                    /\ invoice_id m = cand_id (invoice b)
                    /\ confidence_score m = confidence b)
    /\ (forall b, best = Some b ->
          Config.similarity_threshold settings <= num_value (confidence b))
    /\ (forall b, best = Some b ->
          num_value (confidence b) < Config.auto_match_threshold settings ->
          recorded = None)
    /\ (best = None -> recorded = None).
Proof.
  split.
  { unfold _perform_automatic_matching. now rewrite matching_fold. }
  intros transaction candidates best recorded.
  pose proof (match_transaction_cases transaction invoices_ar invoices_ap) as H.
  unfold decide, routed in H. fold candidates in H. fold best in H. fold recorded in H.
  destruct best as [b|] eqn:Eb.
  - destruct (Qle_bool (Config.auto_match_threshold settings) (num_value (confidence b)))
      eqn:Et.
    + apply Qle_bool_iff in Et. destruct H as (m & Hm & Hid & Hinv & Hconf & _).
      repeat split.
      * intros _. exists b. now split.
      * intros _. now exists m.
      * intros m' Hm'. rewrite Hm in Hm'. injection Hm' as <-. exists b. now repeat split.
      * intros b' Hb'. injection Hb' as <-.
        apply (find_best_match_sound lib (fuzzy_matcher settings) transaction candidates Eb).
      * intros b' Hb' Hlt. injection Hb' as <-. exfalso. apply (Qlt_not_le _ _ Hlt Et).
      * discriminate.
    + assert (Hlt : ~ Config.auto_match_threshold settings <= num_value (confidence b)).
      { intro L. apply Qle_bool_iff in L. congruence. }
      repeat split.
      * intros [m Hm]. congruence.
      * intros (b' & Hb' & L). injection Hb' as <-. contradiction.
      * intros m Hm. congruence.
      * intros b' Hb'. injection Hb' as <-.
        apply (find_best_match_sound lib (fuzzy_matcher settings) transaction candidates Eb).
      * intros; exact H.
      * discriminate.
  - repeat split.
    + intros [m Hm]. congruence.
    + intros (b & Hb & _). discriminate Hb.
    + intros m Hm. congruence.
    + discriminate.
    + discriminate.
    + intros _. exact H.
Qed.


End AutomaticMatching.


(** ** C7: the locale of amounts *)

Section AmountLocale.

Import StatementParser.
Local Open Scope string_scope.

Lemma prefix_comma (c : ascii) (r : string) :
  String.prefix "," (String c r) = Ascii.eqb c ",".
Proof.
  change (String.prefix "," (String c r))
    with (if ascii_dec "," c then String.prefix "" r else false).
  destruct (ascii_dec "," c) as [<-|N].
  - now destruct r.
  - symmetry. apply Ascii.eqb_neq. congruence.
Qed.

Lemma contains_comma_cons (c : ascii) (r : string) :
  contains "," (String c r) = Ascii.eqb c "," || contains "," r.
Proof. cbn [contains]. now rewrite prefix_comma. Qed.

Lemma contains_comma_app (a b : string) : contains "," (a ++ "," ++ b) = true.
Proof.
  induction a as [|c a IH].
  - change ("" ++ "," ++ b) with (String "," b). now rewrite contains_comma_cons.
  - change (String c a ++ "," ++ b) with (String c (a ++ "," ++ b)).
    rewrite contains_comma_cons, IH. apply orb_true_r.
Qed.

Lemma split_comma_free (cur a : string) :
  contains "," a = false -> split_on "," cur a = [cur ++ a].
Proof.
  revert cur. induction a as [|c a IH]; intros cur H.
  - cbn. f_equal. clear. induction cur; cbn; congruence.
  - rewrite contains_comma_cons in H. apply orb_false_iff in H as [Hc Ha].
    cbn [split_on]. rewrite Hc, IH; trivial. f_equal.
    clear. induction cur; cbn; congruence.
Qed.

Lemma split_one_comma (cur a b : string) :
  contains "," a = false -> contains "," b = false ->
  split_on "," cur (a ++ "," ++ b) = [cur ++ a; b].
Proof.
  revert cur. induction a as [|c a IH]; intros cur Ha Hb.
  - cbn. rewrite (split_comma_free "" b Hb). f_equal. clear. induction cur; cbn; congruence.
  - rewrite contains_comma_cons in Ha. apply orb_false_iff in Ha as [Hc Ha].
    change (String c a ++ "," ++ b) with (String c (a ++ "," ++ b)).
    cbn [split_on]. rewrite Hc, IH; trivial. f_equal.
    clear. induction cur; cbn; congruence.
Qed.

Lemma replace_comma_free (new a : string) :
  contains "," a = false -> replace_from "," new 0 a = a.
Proof.
  induction a as [|c a IH]; intro H; trivial.
  rewrite contains_comma_cons in H. apply orb_false_iff in H as [Hc Ha].
  cbn [replace_from]. rewrite prefix_comma, Hc, IH; trivial.
Qed.

Lemma replace_one_comma (new a b : string) :
  contains "," a = false -> contains "," b = false ->
  replace "," new (a ++ "," ++ b) = a ++ new ++ b.
Proof.
  unfold replace. induction a as [|c a IH]; intros Ha Hb.
  - cbn [append replace_from]. rewrite prefix_comma. cbn.
    now rewrite (replace_comma_free new b Hb).
  - rewrite contains_comma_cons in Ha. apply orb_false_iff in Ha as [Hc Ha].
    change (String c a ++ "," ++ b) with (String c (a ++ "," ++ b)).
    cbn [replace_from]. rewrite prefix_comma, Hc, IH; trivial.
Qed.

(** C7.  ["1.234,56"] and ["1234,56"] parse to 1234.56 and ["1,234"] to
    1234.  In general, on the cell cleaned of everything but digits, comma,
    point and signs: with both a comma and a point, the points are dropped
    and the comma is the decimal point; with one comma and no point, the
    comma is the decimal point when at most two characters follow it, and is
    dropped (a thousands separator) when more do. *)
Theorem parse_amount_locale :
  (exists x, _parse_amount "1.234,56" = Ok x /\ (x == 1234.56)%Q)
  /\ (exists x, _parse_amount "1234,56" = Ok x /\ (x == 1234.56)%Q)
  /\ (exists x, _parse_amount "1,234" = Ok x /\ (x == 1234)%Q)
  /\ (forall amount_str,
        contains "," (amount_clean amount_str) = true ->
        contains "." (amount_clean amount_str) = true ->
        _parse_amount amount_str
        = float_or_error amount_str
            (replace "," "." (replace "." "" (amount_clean amount_str))))
  /\ (forall amount_str a b,
        amount_clean amount_str = a ++ "," ++ b ->
        contains "." (amount_clean amount_str) = false ->
        contains "," a = false ->
        contains "," b = false ->
        _parse_amount amount_str
        = float_or_error amount_str
            (if (String.length b <=? 2)%nat then a ++ "." ++ b else a ++ b)).
Proof.
  split; [eexists; split; [vm_compute; reflexivity|reflexivity]|].
  split; [eexists; split; [vm_compute; reflexivity|reflexivity]|].
  split; [eexists; split; [vm_compute; reflexivity|reflexivity]|].
  split.
  - intros amount_str Hc Hp. unfold _parse_amount, float_or_error.
    fold (amount_clean amount_str). now rewrite Hc, Hp.
  - intros amount_str a b E Hp Ha Hb. unfold _parse_amount, float_or_error.
    fold (amount_clean amount_str). rewrite Hp. rewrite E.
    rewrite contains_comma_app. cbn [andb].
    unfold split. rewrite (split_one_comma "" a b Ha Hb).
    cbn [List.length nth Nat.eqb andb].
    destruct (String.length b <=? 2)%nat; cbn [andb].
    + now rewrite (replace_one_comma "." a b Ha Hb).
    + now rewrite (replace_one_comma "" a b Ha Hb).
Qed.

End AmountLocale.

(** ** C2: what the parser returns *)

Section ParsedRows.

Import StatementParser.
Local Open Scope string_scope.

Variable lib : FileLib.

Lemma csv_rows_in_order (column_mapping : ColumnMapping) (columns : list string)
  (rows : list (list string)) (index : nat) (transactions : list Transaction) :
  csv_rows column_mapping columns index rows transactions
  = (transactions
     ++ flat_map
          (fun ir =>
             match csv_row column_mapping columns (fst ir) (snd ir) with
             | Ok txn => [txn]
             | Raise _ => []
             end)
          (combine (seq index (List.length rows)) rows))%list.
Proof.
  revert index transactions.
  induction rows as [|row rest IH]; intros index transactions.
  - cbn. now rewrite app_nil_r.
  - cbn [csv_rows List.length seq combine flat_map fst snd].
    destruct (csv_row column_mapping columns index row); rewrite IH.
    + now rewrite <- app_assoc.
    + reflexivity.
Qed.

(** C2, as the code has it.  For a statement detected as CSV that pandas
    reads and whose date and amount columns are found, [parse_statement]
    returns one transaction for every row that parses, in the order of the
    rows: nothing is collapsed and nothing is sorted. *)
Theorem parsed_rows_in_order (statement_file : UploadFile) (df : DataFrame)
  (column_mapping : ColumnMapping) :
  _detect_format (filename statement_file) (content statement_file) = "csv" ->
  read_with_encodings lib (content statement_file)
    ["utf-8"; "latin1"; "cp1252"; "iso-8859-1"] = Ok (Some df) ->
  _detect_csv_columns (map (fun col => strip (lower col)) (columns df))
  = Some column_mapping ->
  parse_statement lib statement_file = Ok (rows_in_order column_mapping df).
Proof.
  intros Hformat Hread Hcolumns.
  unfold parse_statement. rewrite Hformat. cbn [String.eqb Ascii.eqb Bool.eqb].
  unfold _parse_csv. rewrite Hread. cbn [bind]. rewrite Hcolumns.
  now rewrite csv_rows_in_order.
Qed.

End ParsedRows.

Lemma parsed_rows_in_order_witness :
  exists column_mapping,
    StatementParser.parse_statement Fixtures.filelib Fixtures.csv_upload
    = Ok (rows_in_order column_mapping Fixtures.repeated_frame)
    /\ List.length (rows_in_order column_mapping Fixtures.repeated_frame) = 3%nat.
Proof.
  eexists. split.
  - apply (@parsed_rows_in_order Fixtures.filelib Fixtures.csv_upload
             Fixtures.repeated_frame); vm_compute; reflexivity.
  - vm_compute. reflexivity.
Defined.

(** C2 as stated fails: the statement of three rows, the first and the
    third the same movement and the second of an earlier date, is returned
    as three transactions in the order of the rows; the list holds a
    repeated (date, amount, description) and is not sorted by date. *)
Lemma parsed_rows_in_order_counterexample :
  exists l,
    StatementParser.parse_statement Fixtures.filelib Fixtures.csv_upload = Ok l
    /\ List.length l = 3%nat
    /\ (forall n, collapsed n l = false)
    /\ sorted_by_date l = false.
Proof.
  eexists. split; [vm_compute; reflexivity|].
  split; [reflexivity|]. split; [|vm_compute; reflexivity].
  intro n. cbn [collapsed existsb]. unfold same_movement at 2. cbn [txn_date txn_amount txn_description].
  rewrite String.eqb_refl. reflexivity.
Qed.

(** ** C4: the empty upload *)

Section EmptyUpload.

Import StatementParser ReconciliationEngine.
Local Open Scope string_scope.

Variable settings : Config.Settings.
Variable textlib : FuzzyMatcher.TextLib.
Variable filelib : FileLib.
Variable collab : Collaborators.

(** C4 on the code.  The upload of no bytes named [extrato.pdf]:
    [validate_statement_file] would reject it as empty, yet the engine
    never asks it; [parse_statement] is run and returns the two simulated
    transactions of the PDF parser; and when the discrepancy detector
    answers, steps 2 to 5 run and assemble a reconciliation report of two
    transactions.  The answer of [process_bank_statement] is then the error
    of its closing log line, not a validation error. *)
Theorem empty_pdf_upload_is_reconciled (bank_account_id : string) :
  let statement_file := Fixtures.empty_pdf_upload in
  String.length (content statement_file) = 0%nat
  /\ validate_statement_file filelib (filename statement_file) (content statement_file)
     = Invalid "Arquivo vazio"
  /\ (exists transactions,
        parse_statement filelib statement_file = Ok transactions
        /\ List.length transactions = 2%nat
        /\ forall discrepancies,
             detect_discrepancies collab transactions
               (_perform_automatic_matching settings textlib collab transactions
                  (_get_ar_invoices collab transactions)
                  (_get_ap_invoices collab transactions))
             = Ok discrepancies ->
             (exists report,
                reconcile_statement settings textlib filelib collab
                  statement_file bank_account_id = Ok (Some report)
                /\ total_transactions (summary report) = 2%nat)
             /\ process_bank_statement settings textlib filelib collab
                  statement_file bank_account_id
                = ErrorResponse "'matched_count'" bank_account_id (Some (utcnow collab))).
Proof.
  intro statement_file. split; [reflexivity|]. split; [reflexivity|].
  eexists. split; [reflexivity|]. split; [reflexivity|].
  intros discrepancies H.
  unfold process_bank_statement, reconcile_statement.
  change (parse_statement filelib statement_file) with _parse_pdf.
  unfold _parse_pdf. cbn [bind].
  rewrite H. cbn [bind]. split; [eexists; split; reflexivity|reflexivity].
Qed.

End EmptyUpload.

(* ================================================================== *)
(** * Further properties of the scorer *)
(* ================================================================== *)

Section AmountOutcomes.

Import FuzzyMatcher.
Local Open Scope Q_scope.


End AmountOutcomes.

Section BestMatchInvariant.

Import FuzzyMatcher.
Local Open Scope Q_scope.

Variable lib : TextLib.
Variable self : FuzzyMatcher.t.
Variable transaction : Transaction.

Let amount := py_abs (PyDecimal (txn_amount transaction)).
Let day := txn_date transaction.
Let desc := _normalize_description (txn_description transaction).
Let score (x : Candidate) := _calculate_match_score lib self transaction x amount day desc.
Let step := find_best_match_step lib self transaction amount day desc.

(** What the loop of [find_best_match] has established once the candidates
    [seen] are behind it. *)
Let search_invariant (seen : list Candidate) (st : search_state) : Prop :=
  match fst st with
  | None => snd st = PyFloat 0.0
  | Some b =>
      snd st = confidence b
      /\ similarity_threshold self <= num_value (confidence b)
      /\ In (invoice b) seen
      /\ exists sd, score (invoice b) = Ok sd
                    /\ confidence b = total_score sd
                    /\ reason b = primary_reason sd
                    /\ score_breakdown b = breakdown sd
  end
  /\ forall x sx, In x seen -> score x = Ok sx ->
       num_value (total_score sx) <= num_value (snd st)
       \/ num_value (total_score sx) < similarity_threshold self.

Lemma search_invariant_step (seen : list Candidate) (st : search_state) (x : Candidate) :
  search_invariant seen st -> search_invariant (seen ++ [x]) (step st x).
Proof.
  destruct st as [bm bs]. intros [Hbest Hseen].
  unfold step, find_best_match_step. fold amount day desc. fold (score x).
  destruct (score x) as [sx|e] eqn:Ex.
  - destruct (py_gtb (total_score sx) bs) eqn:Egt.
    + destruct (py_geb (total_score sx) (PyFloat (similarity_threshold self))) eqn:Ege;
        cbn [andb].
      * unfold py_geb, py_leb in Ege. cbn [num_value] in Ege. apply Qle_bool_iff in Ege.
        unfold py_gtb, py_ltb in Egt. apply Qltb_spec in Egt.
        split; cbn [fst snd].
        -- split; [reflexivity|]. split; [exact Ege|].
           split; [apply in_or_app; right; now left|].
           exists sx. cbn. now rewrite Ex.
        -- intros y sy Hin Hy. apply in_app_or in Hin as [Hin|[<-|[]]].
           ++ destruct (Hseen y sy Hin Hy) as [L|L]; [left|now right].
              cbn [snd] in L. apply Qlt_le_weak. eapply Qle_lt_trans; eauto.
           ++ left. rewrite Ex in Hy. injection Hy as <-. apply Qle_refl.
      * unfold py_geb, py_leb in Ege. cbn [num_value] in Ege.
        split; cbn [fst snd] in *.
        -- destruct bm as [b|]; trivial.
           destruct Hbest as (E & Hthr & Hin & Hsd).
           repeat split; trivial. apply in_or_app. now left.
        -- intros y sy Hin Hy. apply in_app_or in Hin as [Hin|[<-|[]]].
           ++ now apply (Hseen y sy).
           ++ right. rewrite Ex in Hy. injection Hy as <-.
              apply Qnot_le_lt. intro L. apply Qle_bool_iff in L. congruence.
    + cbn [andb]. unfold py_gtb, py_ltb in Egt. apply Qltb_total in Egt.
      split; cbn [fst snd] in *.
      * destruct bm as [b|]; trivial.
        destruct Hbest as (E & Hthr & Hin & Hsd).
        repeat split; trivial. apply in_or_app. now left.
      * intros y sy Hin Hy. apply in_app_or in Hin as [Hin|[<-|[]]].
        -- now apply (Hseen y sy).
        -- left. rewrite Ex in Hy. now injection Hy as <-.
  - split; cbn [fst snd] in *.
    + destruct bm as [b|]; trivial.
      destruct Hbest as (E & Hthr & Hin & Hsd).
      repeat split; trivial. apply in_or_app. now left.
    + intros y sy Hin Hy. apply in_app_or in Hin as [Hin|[<-|[]]].
      * now apply (Hseen y sy).
      * rewrite Ex in Hy. discriminate Hy.
Qed.

Lemma search_invariant_fold (l seen : list Candidate) (st : search_state) :
  search_invariant seen st -> search_invariant (seen ++ l) (fold_left step l st).
Proof.
  revert seen st. induction l as [|x r IH]; intros seen st H; cbn [fold_left].
  - now rewrite app_nil_r.
  - replace (seen ++ x :: r)%list with ((seen ++ [x]) ++ r)%list
      by (rewrite <- app_assoc; reflexivity).
    apply IH, search_invariant_step, H.
Qed.

Lemma search_invariant_final (candidates : list Candidate) :
  search_invariant candidates (fold_left step candidates (None, PyFloat 0.0)).
Proof.
  apply (@search_invariant_fold candidates [] (None, PyFloat 0.0)).
  split; [reflexivity|]. intros x sx [].
Qed.

(** The candidate returned was scored, and the dictionary returned is made
    of its score data. *)
Lemma find_best_match_scored (candidates : list Candidate) (b : BestMatch) :
  find_best_match lib self transaction candidates = Some b ->
  exists sd,
    _calculate_match_score lib self transaction (invoice b)
      (py_abs (PyDecimal (txn_amount transaction))) (txn_date transaction)
      (_normalize_description (txn_description transaction)) = Ok sd
    /\ confidence b = total_score sd
    /\ reason b = primary_reason sd
    /\ score_breakdown b = breakdown sd.
Proof.
  rewrite find_best_match_fold. intro E.
  destruct (search_invariant_final candidates) as [H _].
  fold amount day desc step in E. rewrite E in H.
  destruct H as (_ & _ & _ & Hsd). exact Hsd.
Qed.

(** X2.  The dictionary [find_best_match] returns is the score data of the
    candidate it names: that candidate belongs to the list, it was scored
    without an exception, and the confidence, the reason and the breakdown
    are those of its score. *)
Theorem best_match_is_scored (candidates : list Candidate) (b : BestMatch) :
  find_best_match lib self transaction candidates = Some b ->
  In (invoice b) candidates
  /\ exists sd,
       _calculate_match_score lib self transaction (invoice b)
         (py_abs (PyDecimal (txn_amount transaction))) (txn_date transaction)
         (_normalize_description (txn_description transaction)) = Ok sd
       /\ confidence b = total_score sd
       /\ reason b = primary_reason sd
       /\ score_breakdown b = breakdown sd.
Proof.
  intro E. split.
  - apply (find_best_match_sound lib self transaction candidates E).
  - apply (find_best_match_scored candidates E).
Qed.

(** X3.  The candidate returned is a best one: no candidate of the list
    that was scored has a total above the confidence returned. *)
Theorem best_match_is_maximal (candidates : list Candidate) (b : BestMatch)
  (x : Candidate) (sx : ScoreData) :
  find_best_match lib self transaction candidates = Some b ->
  In x candidates ->
  _calculate_match_score lib self transaction x
    (py_abs (PyDecimal (txn_amount transaction))) (txn_date transaction)
    (_normalize_description (txn_description transaction)) = Ok sx ->
  num_value (total_score sx) <= num_value (confidence b).
Proof.
  rewrite find_best_match_fold. intros E Hin Hx.
  destruct (search_invariant_final candidates) as [H Hall].
  fold amount day desc step in E. rewrite E in H.
  destruct H as (Ebs & Hthr & _ & _).
  destruct (Hall x sx Hin Hx) as [L|L].
  - now rewrite Ebs in L.
  - apply Qlt_le_weak. eapply Qlt_le_trans; eauto.
Qed.

(** X4.  [find_best_match] answers [None] exactly when no scored candidate
    has a total that is both positive and at or above the similarity
    floor. *)
Theorem no_match_iff_none_reaches_floor (candidates : list Candidate) :
  find_best_match lib self transaction candidates = None
  <->
  (forall x sx,
     In x candidates ->
     _calculate_match_score lib self transaction x
       (py_abs (PyDecimal (txn_amount transaction))) (txn_date transaction)
       (_normalize_description (txn_description transaction)) = Ok sx ->
     num_value (total_score sx) <= 0
     \/ num_value (total_score sx) < similarity_threshold self).
Proof.
  rewrite find_best_match_fold. fold amount day desc step. split.
  - intros E x sx Hin Hx.
    destruct (search_invariant_final candidates) as [H Hall].
    rewrite E in H. destruct (Hall x sx Hin Hx) as [L|L]; [left|now right].
    rewrite H in L. cbn [num_value] in L. lra.
  - intro Hall.
    assert (K : fold_left step candidates (None, PyFloat 0.0) = (None, PyFloat 0.0)).
    { assert (G : forall l st,
                (forall x sx, In x l -> score x = Ok sx ->
                   num_value (total_score sx) <= num_value (snd st)
                   \/ num_value (total_score sx) < similarity_threshold self) ->
                fold_left step l st = st).
      { induction l as [|y r IH]; intros st Hl; cbn [fold_left]; trivial.
        assert (Ey : step st y = st).
        { unfold step, find_best_match_step. destruct st as [bm bs].
          fold amount day desc. fold (score y).
          destruct (score y) as [sy|e] eqn:Ey; trivial.
          destruct (Hl y sy (or_introl eq_refl) Ey) as [L|L].
          - unfold py_gtb, py_ltb. cbn [snd] in L. now rewrite (Qle_bool_true L).
          - unfold py_geb, py_leb. cbn [num_value].
            rewrite (Qle_bool_false L). now rewrite andb_false_r. }
        rewrite Ey. apply IH. intros x sx Hin. apply Hl. now right. }
      apply G. intros x sx Hin Hx. cbn [snd num_value].
      destruct (Hall x sx Hin Hx) as [L|L]; [left|now right].
      eapply Qle_trans; [exact L|]. intro E; discriminate E. }
    now rewrite K.
Qed.


End BestMatchInvariant.

Section BestMatchInvariantExamples.

Import FuzzyMatcher.
Local Open Scope Q_scope.

Lemma best_match_is_scored_witness :
  exists b,
    find_best_match Fixtures.textlib Fixtures.matcher Fixtures.pix_transaction
      Samples.candidates = Some b
    /\ exists sd,
         _calculate_match_score Fixtures.textlib Fixtures.matcher Fixtures.pix_transaction
           (invoice b)
           (py_abs (PyDecimal (txn_amount Fixtures.pix_transaction)))
           (txn_date Fixtures.pix_transaction)
           (_normalize_description (txn_description Fixtures.pix_transaction)) = Ok sd
         /\ confidence b = total_score sd
         /\ reason b = primary_reason sd
         /\ score_breakdown b = breakdown sd.
Proof.
  eexists. split; [vm_compute; reflexivity|].
  apply (@best_match_is_scored Fixtures.textlib Fixtures.matcher Fixtures.pix_transaction
           Samples.candidates).
  vm_compute. reflexivity.
Defined.

Lemma best_match_is_maximal_witness :
  exists b sx,
    find_best_match Fixtures.textlib Fixtures.matcher Fixtures.pix_transaction
      Samples.candidates = Some b
    /\ _calculate_match_score Fixtures.textlib Fixtures.matcher Fixtures.pix_transaction
         Samples.late_receivable
         (py_abs (PyDecimal (txn_amount Fixtures.pix_transaction)))
         (txn_date Fixtures.pix_transaction)
         (_normalize_description (txn_description Fixtures.pix_transaction)) = Ok sx
    /\ num_value (total_score sx) <= num_value (confidence b).
Proof.
  eexists. eexists. split; [vm_compute; reflexivity|].
  split; [vm_compute; reflexivity|].
  apply (@best_match_is_maximal Fixtures.textlib Fixtures.matcher Fixtures.pix_transaction
           Samples.candidates _ Samples.late_receivable _).
  - vm_compute. reflexivity.
  - left. reflexivity.
  - vm_compute. reflexivity.
Defined.


End BestMatchInvariantExamples.

Section DateScoreOrder.

Import FuzzyMatcher.
Local Open Scope Q_scope.

Lemma inject_Z_minus_7 (d : Z) : inject_Z (d - 7) == inject_Z d - 7.
Proof.
  unfold Z.sub. rewrite inject_Z_plus. unfold Qminus.
  apply Qplus_comp; reflexivity.
Qed.

Ltac split_extrema :=
  repeat match goal with
         | |- context [fmax ?a ?b] =>
             let E := fresh "E" in
             destruct (fmax_spec a b) as [[E ?]|[E ?]]; rewrite E in *; clear E
         | |- context [fmin ?a ?b] =>
             let E := fresh "E" in
             destruct (fmin_spec a b) as [[E ?]|[E ?]]; rewrite E in *; clear E
         | H : context [fmin ?a ?b] |- _ =>
             let E := fresh "E" in
             destruct (fmin_spec a b) as [[E ?]|[E ?]]; rewrite E in *; clear E
         end.

(** X6.  With an "after" tolerance of at most 14 days (10 in the settings)
    the date score never grows with the distance: a candidate at least as
    near to the transaction date as another scores at least as much. *)
Theorem date_score_nearer_is_better (self : FuzzyMatcher.t)
  (txn_date c1 c2 : Date.date) :
  (date_tolerance_after self <= 14)%Z ->
  (Z.abs (Date.days_between txn_date c1) <= Z.abs (Date.days_between txn_date c2))%Z ->
  _calculate_date_score self txn_date (Some c2)
  <= _calculate_date_score self txn_date (Some c1).
Proof.
  intros Htol Hle. unfold _calculate_date_score.
  set (d1 := Z.abs (Date.days_between txn_date c1)) in *.
  set (d2 := Z.abs (Date.days_between txn_date c2)) in *.
  assert (H1 : (0 <= d1)%Z) by apply Z.abs_nonneg.
  assert (Q1 : 0 <= inject_Z d1) by (change 0 with (inject_Z 0); rewrite <- Zle_Qle; lia).
  assert (Q12 : inject_Z d1 <= inject_Z d2) by (rewrite <- Zle_Qle; lia).
  pose proof (inject_Z_minus_7 d1) as M1.
  pose proof (inject_Z_minus_7 d2) as M2.
  destruct (d2 =? 0)%Z eqn:A2; [apply Z.eqb_eq in A2|apply Z.eqb_neq in A2];
  destruct (d1 =? 0)%Z eqn:A1; [apply Z.eqb_eq in A1|apply Z.eqb_neq in A1|
                                apply Z.eqb_eq in A1|apply Z.eqb_neq in A1];
    try lia; try (intro E; discriminate E).
  - (* d1 = 0 < d2 *)
    pose proof (date_score_in_unit self txn_date (Some c2)) as [_ U].
    unfold _calculate_date_score in U. fold d2 in U.
    destruct (d2 =? 0)%Z eqn:A2'; [apply Z.eqb_eq in A2'; lia|].
    eapply Qle_trans; [exact U|].
    intro E; discriminate E.
  - destruct (d2 <=? 3)%Z eqn:B2; [apply Z.leb_le in B2|apply Z.leb_gt in B2];
    destruct (d1 <=? 3)%Z eqn:B1; [apply Z.leb_le in B1|apply Z.leb_gt in B1|
                                  apply Z.leb_le in B1|apply Z.leb_gt in B1];
      try lia; try (intro E; discriminate E).
    + (* d1 <= 3 < d2 *)
      destruct (d2 <=? 7)%Z eqn:C2; [intro E; discriminate E|apply Z.leb_gt in C2].
      assert (Q2 : 8 <= inject_Z d2)
        by (change 8 with (inject_Z 8); rewrite <- Zle_Qle; lia).
      destruct (d2 <=? date_tolerance_after self)%Z; split_extrema; lra.
    + destruct (d2 <=? 7)%Z eqn:C2; [apply Z.leb_le in C2|apply Z.leb_gt in C2];
      destruct (d1 <=? 7)%Z eqn:C1; [apply Z.leb_le in C1|apply Z.leb_gt in C1|
                                    apply Z.leb_le in C1|apply Z.leb_gt in C1];
        try lia; try (intro E; discriminate E).
      * (* d1 <= 7 < d2 *)
        assert (Q2 : 8 <= inject_Z d2)
          by (change 8 with (inject_Z 8); rewrite <- Zle_Qle; lia).
        destruct (d2 <=? date_tolerance_after self)%Z; split_extrema; lra.
      * assert (Q8 : 8 <= inject_Z d1)
          by (change 8 with (inject_Z 8); rewrite <- Zle_Qle; lia).
        destruct (d2 <=? date_tolerance_after self)%Z eqn:D2;
          [apply Z.leb_le in D2|apply Z.leb_gt in D2];
        destruct (d1 <=? date_tolerance_after self)%Z eqn:D1;
          [apply Z.leb_le in D1|apply Z.leb_gt in D1|
           apply Z.leb_le in D1|apply Z.leb_gt in D1];
          try lia.
        -- split_extrema; lra.
        -- (* d1 inside the tolerance, d2 beyond it *)
           assert (Q14 : inject_Z d1 <= 14)
             by (change 14 with (inject_Z 14); rewrite <- Zle_Qle; lia).
           assert (Qs : inject_Z d1 + 1 <= inject_Z d2).
           { change 1 with (inject_Z 1). rewrite <- inject_Z_plus, <- Zle_Qle. lia. }
           split_extrema; lra.
        -- split_extrema; lra.
Qed.

Lemma date_score_nearer_is_better_witness :
  _calculate_date_score Fixtures.matcher (Date.mkdate 2024 2 10)
    (Some (Date.mkdate 2024 2 25))
  <= _calculate_date_score Fixtures.matcher (Date.mkdate 2024 2 10)
       (Some (Date.mkdate 2024 2 1)).
Proof.
  apply date_score_nearer_is_better.
  - vm_compute. intro E. discriminate E.
  - vm_compute. intro E. discriminate E.
Defined.

End DateScoreOrder.

Section PrimaryReason.

Import FuzzyMatcher.
Local Open Scope Q_scope.
Local Open Scope string_scope.

Let pick (best y : string * Q) : string * Q :=
  if Qltb (snd best) (snd y) then y else best.

Lemma fold_pick_in (r : list (string * Q)) (x : string * Q) :
  In (fold_left pick r x) (x :: r).
Proof.
  revert x. induction r as [|y r IH]; intro x; cbn [fold_left].
  - now left.
  - unfold pick at 2. destruct (Qltb (snd x) (snd y)).
    + right. apply IH.
    + destruct (IH x) as [E|Hin]; [now left|right; now right].
Qed.

Lemma fold_pick_ge_start (r : list (string * Q)) (x : string * Q) :
  (snd x <= snd (fold_left pick r x))%Q.
Proof.
  revert x. induction r as [|y r IH]; intro x; cbn [fold_left].
  - apply Qle_refl.
  - unfold pick at 2. destruct (Qltb (snd x) (snd y)) eqn:E.
    + apply Qltb_spec in E. eapply Qle_trans; [apply Qlt_le_weak, E|apply IH].
    + apply IH.
Qed.

Lemma pick_ge (x y : string * Q) :
  (snd x <= snd (pick x y))%Q /\ (snd y <= snd (pick x y))%Q.
Proof.
  unfold pick. destruct (Qltb (snd x) (snd y)) eqn:E.
  - apply Qltb_spec in E. split; [now apply Qlt_le_weak|apply Qle_refl].
  - apply Qltb_total in E. split; [apply Qle_refl|exact E].
Qed.

Lemma fold_pick_ge (r : list (string * Q)) (x y : string * Q) :
  In y (x :: r) -> (snd y <= snd (fold_left pick r x))%Q.
Proof.
  revert x. induction r as [|z r IH]; intros x Hin; cbn [fold_left].
  - destruct Hin as [<-|[]]. apply Qle_refl.
  - destruct Hin as [<-|[<-|Hin]].
    + eapply Qle_trans; [apply (pick_ge x z)|apply fold_pick_ge_start].
    + eapply Qle_trans; [apply (pick_ge x z)|apply fold_pick_ge_start].
    + apply IH. now right.
Qed.

Lemma fold_pick_first (r : list (string * Q)) (x : string * Q) :
  (forall y, In y r -> (snd y <= snd x)%Q) -> fold_left pick r x = x.
Proof.
  induction r as [|y r IH]; intro H; cbn [fold_left]; trivial.
  unfold pick at 2. rewrite (Qltb_false (H y (or_introl eq_refl))).
  apply IH. intros z Hz. apply H. now right.
Qed.

(** X7.  The reason names a single factor exactly when one of the four
    scores is at least 0.8; when all four are below 0.8 it is one of the
    combination labels. *)
Theorem primary_reason_kinds (amount_score date_score desc_score ref_score : Q) :
  ((0.8 <= amount_score \/ 0.8 <= date_score \/ 0.8 <= desc_score \/ 0.8 <= ref_score)%Q ->
   In (_determine_primary_reason amount_score date_score desc_score ref_score)
      factor_reasons)
  /\
  ((amount_score < 0.8 /\ date_score < 0.8 /\ desc_score < 0.8 /\ ref_score < 0.8)%Q ->
   In (_determine_primary_reason amount_score date_score desc_score ref_score)
      combination_reasons).
Proof.
  unfold _determine_primary_reason, first_max. fold pick.
  match goal with
  | |- context [fold_left pick ?r ?x] =>
      pose proof (fold_pick_in r x) as Hin;
      pose proof (@fold_pick_ge r x) as Hge;
      set (best := fold_left pick r x) in *
  end.
  split.
  - intro H.
    assert (Hpos : (0 < snd best)%Q).
    { destruct H as [H|[H|[H|H]]].
      - destruct (Qlt_le_dec amount_score 0.95) as [L|L].
        + eapply Qlt_le_trans;
            [|apply (Hge ("valor_similar",
                          if Qle_bool 0.8 amount_score && Qltb amount_score 0.95
                          then amount_score else 0%Q)); right; now left].
          cbn [snd]. rewrite (Qle_bool_true H), (Qltb_true L). cbn [andb]. lra.
        + eapply Qlt_le_trans; [|apply (Hge _ (or_introl eq_refl))].
          cbn [snd]. rewrite (Qle_bool_true L). lra.
      - destruct (Qlt_le_dec date_score 0.95) as [L|L].
        + eapply Qlt_le_trans;
            [|apply (Hge ("data_proxima",
                          if Qle_bool 0.8 date_score && Qltb date_score 0.95
                          then date_score else 0%Q)); do 3 right; now left].
          cbn [snd]. rewrite (Qle_bool_true H), (Qltb_true L). cbn [andb]. lra.
        + eapply Qlt_le_trans;
            [|apply (Hge ("data_exata", if Qle_bool 0.95 date_score then date_score else 0%Q));
              do 2 right; now left].
          cbn [snd]. rewrite (Qle_bool_true L). lra.
      - eapply Qlt_le_trans;
          [|apply (Hge ("descricao_similar",
                        if Qle_bool 0.8 desc_score then desc_score else 0%Q));
            do 4 right; now left].
        cbn [snd]. rewrite (Qle_bool_true H). lra.
      - eapply Qlt_le_trans;
          [|apply (Hge ("referencia_match",
                        if Qle_bool 0.8 ref_score then ref_score else 0%Q));
            do 5 right; now left].
        cbn [snd]. rewrite (Qle_bool_true H). lra. }
    rewrite (Qltb_true Hpos).
    unfold factor_reasons.
    destruct Hin as [E|[E|[E|[E|[E|[E|[]]]]]]]; rewrite <- E; cbn [fst In]; auto 10.
  - intros (Ha & Hd & Hs & Hr).
    assert (Hzero : (snd best <= 0)%Q).
    { assert (Ea : Qle_bool 0.95 amount_score = false) by (apply Qle_bool_false; lra).
      assert (Ea' : Qle_bool 0.8 amount_score = false) by (apply Qle_bool_false; lra).
      assert (Ed : Qle_bool 0.95 date_score = false) by (apply Qle_bool_false; lra).
      assert (Ed' : Qle_bool 0.8 date_score = false) by (apply Qle_bool_false; lra).
      assert (Es : Qle_bool 0.8 desc_score = false) by (apply Qle_bool_false; lra).
      assert (Er : Qle_bool 0.8 ref_score = false) by (apply Qle_bool_false; lra).
      rewrite Ea, Ea', Ed, Ed', Es, Er in Hin. cbn [andb] in Hin.
      destruct Hin as [E|[E|[E|[E|[E|[E|[]]]]]]]; rewrite <- E; cbn [snd]; apply Qle_refl. }
    rewrite (Qltb_false Hzero). unfold combination_reasons.
    destruct (Qle_bool 0.7 amount_score && Qle_bool 0.7 date_score); [cbn; auto|].
    destruct (Qle_bool 0.7 amount_score && Qle_bool 0.7 desc_score); [cbn; auto|].
    destruct (Qle_bool 0.7 desc_score && Qle_bool 0.7 date_score); cbn; auto.
Qed.

(** X8.  An amount score of at least 0.95 that no other score exceeds is
    the reason given: ["valor_exato"] comes first among equals. *)
Theorem exact_amount_is_the_reason (amount_score date_score desc_score ref_score : Q) :
  (0.95 <= amount_score)%Q ->
  (date_score <= amount_score)%Q ->
  (desc_score <= amount_score)%Q ->
  (ref_score <= amount_score)%Q ->
  _determine_primary_reason amount_score date_score desc_score ref_score = "valor_exato".
Proof.
  intros Ha Hd Hs Hr.
  unfold _determine_primary_reason, first_max. fold pick.
  rewrite fold_pick_first.
  - cbn [fst snd]. rewrite (Qle_bool_true Ha).
    assert (P : (0 < amount_score)%Q) by lra. now rewrite (Qltb_true P).
  - cbn [snd]. rewrite (Qle_bool_true Ha).
    intros y [<-|[<-|[<-|[<-|[<-|[]]]]]]; cbn [snd];
      match goal with
      | |- ((if ?b then _ else _) <= _)%Q => destruct b
      end; lra.
Qed.

Lemma exact_amount_is_the_reason_witness :
  _determine_primary_reason 1.0 1.0 1.0 0.5 = "valor_exato".
Proof.
  apply exact_amount_is_the_reason; intro E; discriminate E.
Defined.

End PrimaryReason.

Section ReferenceNumbers.

Import FuzzyMatcher.
Local Open Scope string_scope.

Variable lib : TextLib.

Lemma existsb_eqb_false (s : string) (l : list string) :
  existsb (String.eqb s) l = false -> ~ In s l.
Proof.
  intros H Hin.
  assert (E : existsb (String.eqb s) l = true).
  { apply existsb_exists. exists s. split; trivial. apply String.eqb_refl. }
  congruence.
Qed.

(** X9.  The reference tokens extracted from a text are pairwise distinct,
    and none of them holds a hyphen or a blank. *)
Theorem extracted_references_distinct (text : string) :
  NoDup (_extract_reference_numbers lib text)
  /\ forall ref c,
       In ref (_extract_reference_numbers lib text) ->
       In c (list_ascii_of_string ref) ->
       c <> "-"%char /\ is_space c = false.
Proof.
  unfold _extract_reference_numbers.
  destruct (negb (truthy text)); [split; [constructor|intros ref c []]|].
  match goal with
  | |- context [fold_left ?f ?refs []] =>
      set (step := f); generalize refs; intro references
  end.
  set (clean := fun ref : string =>
                  forall c, In c (list_ascii_of_string ref) ->
                            c <> "-"%char /\ is_space c = false).
  assert (H : forall l acc,
            NoDup acc -> (forall ref, In ref acc -> clean ref) ->
            NoDup (fold_left step l acc)
            /\ forall ref, In ref (fold_left step l acc) -> clean ref).
  { induction l as [|ref r IH]; intros acc Hnd Hcl; cbn [fold_left]; [now split|].
    apply IH; unfold step.
    - destruct (existsb _ acc) eqn:E; trivial.
      apply existsb_eqb_false in E.
      apply NoDup_app; [trivial|repeat constructor; intros []|].
      intros x Hx [<-|[]]. contradiction.
    - intros x. destruct (existsb _ acc); [apply Hcl|].
      intro Hx. apply in_app_or in Hx as [Hx|[<-|[]]]; [now apply Hcl|].
      clear. intros c. induction ref as [|a ref IH]; cbn [str_filter]; [intros []|].
      destruct (negb (Ascii.eqb a "-" || is_space a)) eqn:E; trivial.
      cbn [list_ascii_of_string In]. intros [<-|Hin]; [|now apply IH].
      apply negb_true_iff, orb_false_iff in E as [E1 E2].
      split; trivial. now apply Ascii.eqb_neq. }
  destruct (H references [] (NoDup_nil _) (fun ref (F : In ref []) => match F with end))
    as [Hnd Hcl].
  split; trivial. intros ref c Hin. now apply Hcl.
Qed.

End ReferenceNumbers.

(* ================================================================== *)
(** * Further properties of the parser *)
(* ================================================================== *)

Section Formats.

Import StatementParser.
Local Open Scope string_scope.

Variable lib : FileLib.

Lemma detect_format_cases (filename content : string) :
  _detect_format filename content = "ofx"
  \/ _detect_format filename content = "csv"
  \/ _detect_format filename content = "pdf".
Proof.
  unfold _detect_format.
  repeat match goal with
         | |- context [if ?b then _ else _] => destruct b
         end; auto.
Qed.

(** X10.  The detected format is always one of ofx, csv and pdf, so
    [parse_statement] always hands the file to one of its three parsers:
    its "unsupported format" error cannot occur. *)
Theorem detected_format_is_parsed (statement_file : UploadFile) :
  In (_detect_format (filename statement_file) (content statement_file))
     ["ofx"; "csv"; "pdf"]
  /\ (parse_statement lib statement_file = _parse_ofx lib (content statement_file)
      \/ parse_statement lib statement_file = _parse_csv lib (content statement_file)
      \/ parse_statement lib statement_file = _parse_pdf).
Proof.
  unfold parse_statement.
  destruct (detect_format_cases (filename statement_file) (content statement_file))
    as [E|[E|E]]; rewrite E; cbn; auto.
Qed.

Lemma length_zero_empty (s : string) : String.length s = 0%nat <-> s = "".
Proof. destruct s; split; intro H; trivial; discriminate H. Qed.

(** X11.  [validate_statement_file] rejects a file as empty exactly when it
    has no bytes; a file it accepts has between 1 byte and 50 MB, is given
    the detected format, which is a supported one, and a non-negative
    estimate; and when ofxparse is installed every file of 1 byte to 50 MB is
    accepted, whatever its name and bytes. *)
Theorem validation_outcomes (filename content : string) :
  (validate_statement_file lib filename content = Invalid "Arquivo vazio"
   <-> content = "")
  /\ (forall format size estimated,
        validate_statement_file lib filename content = Valid format size estimated ->
        format = _detect_format filename content
        /\ size = Z.of_nat (String.length content)
        /\ (0 < size <= 50 * 1024 * 1024)%Z
        /\ In format (get_supported_formats lib)
        /\ (0 <= estimated)%Z)
  /\ (OFX_AVAILABLE lib = true ->
      (0 < Z.of_nat (String.length content) <= 50 * 1024 * 1024)%Z ->
      exists estimated,
        validate_statement_file lib filename content
        = Valid (_detect_format filename content) (Z.of_nat (String.length content))
                estimated).
Proof.
  unfold validate_statement_file.
  set (size := Z.of_nat (String.length content)).
  assert (Hsize : (0 <= size)%Z) by apply Nat2Z.is_nonneg.
  destruct (size =? 0)%Z eqn:E0.
  - apply Z.eqb_eq in E0. split; [|split].
    + split; trivial. intros _. apply length_zero_empty. unfold size in E0. lia.
    + discriminate.
    + intros _ H. lia.
  - apply Z.eqb_neq in E0.
    assert (Hne : content <> "").
    { intro E. subst content. now apply E0. }
    destruct (50 * 1024 * 1024 <? size)%Z eqn:E1.
    + apply Z.ltb_lt in E1. split; [|split].
      * split; [discriminate|contradiction].
      * discriminate.
      * intros _ H. lia.
    + apply Z.ltb_ge in E1.
      destruct (existsb _ (get_supported_formats lib)) eqn:E2; cbn [negb].
      * split; [|split].
        -- split; [discriminate|contradiction].
        -- intros format sz est H. injection H as <- <- <-.
           repeat split; try lia.
           ++ apply existsb_exists in E2 as (f & Hin & Ef).
              apply String.eqb_eq in Ef. now subst f.
           ++ unfold _estimate_transaction_count.
              repeat match goal with
                     | |- context [if ?b then _ else _] => destruct b
                     end; lia.
        -- intros _ _. eexists. reflexivity.
      * split; [|split].
        -- split; [|contradiction]. intro H. injection H as H. discriminate H.
        -- discriminate.
        -- intros Hofx _. exfalso.
           assert (K : existsb (String.eqb (_detect_format filename content))
                               (get_supported_formats lib) = true).
           { unfold get_supported_formats. rewrite Hofx.
             destruct (detect_format_cases filename content) as [E|[E|E]];
               rewrite E; reflexivity. }
           congruence.
Qed.

End Formats.

Section DatesAndAmounts.

Import StatementParser.
Local Open Scope string_scope.






End DatesAndAmounts.

Section CsvRows.

Import StatementParser.
Local Open Scope string_scope.

Lemma row_item_missing (columns row : list string) (name : string) :
  ~ In name columns -> row_item columns row name = Raise (KeyError name).
Proof.
  intro H. unfold row_item.
  destruct (find _ (combine columns row)) as [p|] eqn:E; trivial.
  apply find_some in E as [Hin Heq]. apply String.eqb_eq in Heq.
  destruct p as [k v]. cbn [fst] in Heq. subst k.
  apply in_combine_l in Hin. contradiction.
Qed.

(** A row is passed over as soon as one of the three columns it is read
    through is not a column of the frame. *)
Lemma csv_row_missing_column (column_mapping : ColumnMapping) (columns : list string)
  (index : nat) (row : list string) :
  ~ In (m_date column_mapping) columns
  \/ ~ In (m_amount column_mapping) columns
  \/ ~ In (FuzzyMatcher.get (m_description column_mapping) "") columns ->
  exists e, csv_row column_mapping columns index row = Raise e.
Proof.
  intro H. unfold csv_row.
  destruct (row_item columns row (m_date column_mapping)) as [d|e] eqn:Ed;
    [|eexists; reflexivity].
  destruct (row_item columns row (m_amount column_mapping)) as [a|e] eqn:Ea;
    [|eexists; reflexivity].
  destruct (row_item columns row (FuzzyMatcher.get (m_description column_mapping) ""))
    as [s|e] eqn:Es; [|eexists; reflexivity].
  exfalso. destruct H as [H|[H|H]].
  - rewrite (@row_item_missing columns row _ H) in Ed. discriminate Ed.
  - rewrite (@row_item_missing columns row _ H) in Ea. discriminate Ea.
  - rewrite (@row_item_missing columns row _ H) in Es. discriminate Es.
Qed.

Lemma csv_rows_all_skipped (column_mapping : ColumnMapping) (columns : list string)
  (rows : list (list string)) (index : nat) (transactions : list Transaction) :
  (forall i row, exists e, csv_row column_mapping columns i row = Raise e) ->
  csv_rows column_mapping columns index rows transactions = transactions.
Proof.
  intro H. revert index. induction rows as [|row rest IH]; intro index; cbn [csv_rows].
  - reflexivity.
  - destruct (H index row) as [e ->]. apply IH.
Qed.

Variable lib : FileLib.

Lemma parse_csv_missing_column (content : string) (df : DataFrame)
  (column_mapping : ColumnMapping) :
  read_with_encodings lib content ["utf-8"; "latin1"; "cp1252"; "iso-8859-1"]
  = Ok (Some df) ->
  _detect_csv_columns (map (fun col => strip (lower col)) (columns df))
  = Some column_mapping ->
  ~ In (m_date column_mapping) (columns df)
  \/ ~ In (m_amount column_mapping) (columns df)
  \/ ~ In (FuzzyMatcher.get (m_description column_mapping) "") (columns df) ->
  _parse_csv lib content = Ok [].
Proof.
  intros Hread Hmap Hmiss. unfold _parse_csv. rewrite Hread. cbn [bind]. rewrite Hmap.
  rewrite csv_rows_all_skipped; trivial.
  intros i row. now apply csv_row_missing_column.
Qed.

(** X14.  The columns are detected on the header in lower case and
    stripped, but the rows are read through the header as it is written: if
    the name detected for the date or for the amount is not literally a
    column of the frame (a capital letter or a blank around it is enough),
    every row is passed over and the statement parses to no transaction. *)
Theorem csv_header_must_be_normalised (content : string) (df : DataFrame)
  (column_mapping : ColumnMapping) :
  read_with_encodings lib content ["utf-8"; "latin1"; "cp1252"; "iso-8859-1"]
  = Ok (Some df) ->
  _detect_csv_columns (map (fun col => strip (lower col)) (columns df))
  = Some column_mapping ->
  ~ In (m_date column_mapping) (columns df)
  \/ ~ In (m_amount column_mapping) (columns df) ->
  _parse_csv lib content = Ok [].
Proof.
  intros Hread Hmap Hmiss.
  apply (@parse_csv_missing_column content df column_mapping Hread Hmap).
  destruct Hmiss; auto.
Qed.

(** X15.  A statement without a description column parses to no
    transaction: the description is then read from the column of empty
    name, and unless the frame has one every row is passed over. *)
Theorem csv_without_description_is_empty (content : string) (df : DataFrame)
  (column_mapping : ColumnMapping) :
  read_with_encodings lib content ["utf-8"; "latin1"; "cp1252"; "iso-8859-1"]
  = Ok (Some df) ->
  _detect_csv_columns (map (fun col => strip (lower col)) (columns df))
  = Some column_mapping ->
  m_description column_mapping = None ->
  ~ In "" (columns df) ->
  _parse_csv lib content = Ok [].
Proof.
  intros Hread Hmap Hdesc Hempty.
  apply (@parse_csv_missing_column content df column_mapping Hread Hmap).
  right. right. now rewrite Hdesc.
Qed.

End CsvRows.

Lemma csv_header_must_be_normalised_witness :
  StatementParser._parse_csv
    (Statements.reading Statements.capitalised_text Statements.capitalised_frame)
    Statements.capitalised_text = Ok [].
Proof.
  eapply (@csv_header_must_be_normalised
            (Statements.reading Statements.capitalised_text Statements.capitalised_frame)
            Statements.capitalised_text Statements.capitalised_frame).
  - vm_compute. reflexivity.
  - vm_compute. reflexivity.
  - left. vm_compute. intros [E|[E|[E|[]]]]; discriminate E.
Defined.

Lemma csv_without_description_is_empty_witness :
  StatementParser._parse_csv
    (Statements.reading Statements.bare_text Statements.bare_frame)
    Statements.bare_text = Ok [].
Proof.
  eapply (@csv_without_description_is_empty
            (Statements.reading Statements.bare_text Statements.bare_frame)
            Statements.bare_text Statements.bare_frame).
  - vm_compute. reflexivity.
  - vm_compute. reflexivity.
  - vm_compute. reflexivity.
  - vm_compute. intros [E|[E|[]]]; discriminate E.
Defined.

Section ParsedTransactions.

Import StatementParser.
Local Open Scope string_scope.
Local Open Scope Q_scope.

Variable lib : FileLib.

(** The type is "credit" for a positive amount and "debit" otherwise, and
    the source is [source]. *)
Let well_typed (source : string) (t : Transaction) : Prop :=
  txn_source t = source
  /\ (txn_type t = "credit"%string <-> 0 < txn_amount t)
  /\ (txn_type t = "debit"%string <-> txn_amount t <= 0).

Lemma type_of_sign (amount : Q) (type : string) :
  type = (if Qltb 0 amount then "credit" else "debit")%string ->
  (type = "credit"%string <-> 0 < amount)
  /\ (type = "debit"%string <-> amount <= 0).
Proof.
  intros ->. destruct (Qltb 0 amount) eqn:E.
  - apply Qltb_spec in E. repeat split; trivial; try discriminate.
    intro L. exfalso. apply (Qlt_not_le _ _ E L).
  - apply Qltb_total in E. repeat split; trivial; try discriminate.
    intro L. exfalso. apply (Qlt_not_le _ _ L E).
Qed.

Lemma csv_row_well_typed (column_mapping : ColumnMapping) (columns : list string)
  (index : nat) (row : list string) (t : Transaction) :
  csv_row column_mapping columns index row = Ok t -> well_typed "csv" t.
Proof.
  unfold csv_row.
  destruct (row_item columns row (m_date column_mapping)); [|discriminate].
  destruct (row_item columns row (m_amount column_mapping)); [|discriminate].
  destruct (row_item columns row _); [|discriminate].
  cbn [bind]. destruct (_parse_date _); [|discriminate].
  cbn [bind]. destruct (_parse_amount _) as [amount|]; [|discriminate].
  cbn [bind]. intro E. injection E as <-. unfold well_typed. cbn.
  split; trivial. now apply type_of_sign.
Qed.

(** X16.  In every statement that parses, whatever its format, each
    transaction carries the detected format as its source, the type
    "credit" exactly when its amount is positive and the type "debit"
    exactly when it is zero or negative. *)
Theorem parsed_transactions_are_typed (statement_file : UploadFile)
  (transactions : list Transaction) (t : Transaction) :
  parse_statement lib statement_file = Ok transactions ->
  In t transactions ->
  txn_source t = _detect_format (filename statement_file) (content statement_file)
  /\ (txn_type t = "credit"%string <-> 0 < txn_amount t)
  /\ (txn_type t = "debit"%string <-> txn_amount t <= 0).
Proof.
  unfold parse_statement.
  destruct (detect_format_cases (filename statement_file) (content statement_file))
    as [E|[E|E]]; rewrite E; cbn [String.eqb Ascii.eqb Bool.eqb]; intros H Hin.
  - (* ofx *)
    unfold _parse_ofx in H. destruct (OFX_AVAILABLE lib); [|discriminate H].
    cbn [negb] in H. destruct (OfxParser_parse lib _) as [accounts|]; [|discriminate H].
    cbn [bind] in H. injection H as <-.
    apply in_flat_map in Hin as (account & _ & Hin).
    apply in_map_iff in Hin as (x & <- & _). cbn.
    split; trivial. now apply type_of_sign.
  - (* csv *)
    unfold _parse_csv in H.
    destruct (read_with_encodings lib _ _) as [[df|]|]; try discriminate H.
    cbn [bind] in H.
    destruct (_detect_csv_columns _) as [column_mapping|]; [|discriminate H].
    injection H as <-. rewrite csv_rows_in_order in Hin. cbn [app] in Hin.
    apply in_flat_map in Hin as ([i row] & _ & Hin). cbn [fst snd] in Hin.
    destruct (csv_row column_mapping (columns df) i row) as [x|] eqn:Ex; [|destruct Hin].
    destruct Hin as [<-|[]]. apply (@csv_row_well_typed _ _ _ _ _ Ex).
  - (* pdf *)
    unfold _parse_pdf in H. injection H as <-.
    destruct Hin as [<-|[<-|[]]]; cbn; (split; [reflexivity|]);
      now apply type_of_sign.
Qed.

End ParsedTransactions.

Lemma parsed_transactions_are_typed_witness :
  exists transactions t,
    StatementParser.parse_statement Statements.ofx_lib
      (Statements.upload "extrato.ofx" "OFXHEADER:100") = Ok transactions
    /\ In t transactions
    /\ (txn_amount t == 0)%Q
    /\ txn_source t = "ofx"%string
    /\ (txn_type t = "debit"%string <-> (txn_amount t <= 0)%Q).
Proof.
  eexists. eexists. split; [vm_compute; reflexivity|].
  split; [right; left; reflexivity|]. split; [reflexivity|].
  destruct (@parsed_transactions_are_typed Statements.ofx_lib
              (Statements.upload "extrato.ofx" "OFXHEADER:100") _
              (StatementParser.ofx_transaction
                 {| StatementParser.ofx_account_id := "12345-6";
                    StatementParser.ofx_transactions := [] |}
                 {| StatementParser.ofx_id := "202401190002";
                    StatementParser.ofx_date := Date.mkdate 2024 1 19;
                    StatementParser.ofx_amount := 0;
                    StatementParser.ofx_memo := "";
                    StatementParser.ofx_payee := "";
                    StatementParser.ofx_checknum := "000123";
                    StatementParser.ofx_trntype := "other" |})
              eq_refl) as (Hs & _ & Hd).
  - right. left. reflexivity.
  - split; [exact Hs|exact Hd].
Defined.

Section OfxAndDescriptions.

Import StatementParser.
Local Open Scope string_scope.

Variable lib : FileLib.




End OfxAndDescriptions.


Section Upload.

Import StatementParser Main.
Local Open Scope string_scope.

(** X19.  The upload endpoint looks at the extension only: when it adds the
    background task, the task gets the file as it came, whatever its bytes
    (none at all included), and the format detected for it does not depend
    on the bytes; when it adds none, it answers with the rejection. *)
Theorem upload_decides_by_extension (file : UploadFile) (bank_account_id : string) :
  (forall task,
     snd (upload_bank_statement file bank_account_id) = Some task ->
     task = (file, bank_account_id)
     /\ (forall bytes,
           snd (upload_bank_statement
                  {| filename := filename file; content := bytes |} bank_account_id)
           = Some ({| filename := filename file; content := bytes |}, bank_account_id))
     /\ (forall bytes bytes',
           _detect_format (filename file) bytes = _detect_format (filename file) bytes'))
  /\ (snd (upload_bank_statement file bank_account_id) = None ->
      fst (upload_bank_statement file bank_account_id)
      = UploadRejected "Formato não suportado. Use OFX, CSV ou PDF" ["OFX"; "CSV"; "PDF"]).
Proof.
  unfold upload_bank_statement. cbn [filename].
  destruct (endswith (lower (filename file)) ".ofx") eqn:E1; cbn [orb negb fst snd].
  { split; [|discriminate]. intros task H. injection H as <-.
    repeat split; trivial. intros. unfold _detect_format. now rewrite E1. }
  destruct (endswith (lower (filename file)) ".csv") eqn:E2; cbn [orb negb fst snd].
  { split; [|discriminate]. intros task H. injection H as <-.
    repeat split; trivial. intros. unfold _detect_format. now rewrite E1, E2. }
  destruct (endswith (lower (filename file)) ".pdf") eqn:E3; cbn [orb negb fst snd].
  { split; [|discriminate]. intros task H. injection H as <-.
    repeat split; trivial. intros. unfold _detect_format. now rewrite E1, E2, E3. }
  split; [discriminate|reflexivity].
Qed.

End Upload.

(* ================================================================== *)
(** * Further properties of the engine *)
(* ================================================================== *)

Section BatchResult.

Import FuzzyMatcher ReconciliationEngine.
Local Open Scope Q_scope.

Variable settings : Config.Settings.
Variable lib : TextLib.
Variable collab : Collaborators.

Let outcome (invoices_ar invoices_ap : list Candidate) (transaction : Transaction) :=
  match match_transaction settings lib collab transaction invoices_ar invoices_ap with
  | Some m => [m]
  | None => []
  end.

Lemma matching_is_flat_map (transactions : list Transaction)
  (invoices_ar invoices_ap : list Candidate) :
  _perform_automatic_matching settings lib collab transactions invoices_ar invoices_ap
  = flat_map (outcome invoices_ar invoices_ap) transactions.
Proof. unfold _perform_automatic_matching. now rewrite matching_fold. Qed.

(** What a recorded match holds. *)
Lemma match_transaction_record (transaction : Transaction)
  (invoices_ar invoices_ap : list Candidate) (m : TransactionMatch) :
  match_transaction settings lib collab transaction invoices_ar invoices_ap = Some m ->
  transaction_id m = txn_id transaction
  /\ matched_amount m = Qabs (txn_amount transaction)
  /\ matched_by m = None
  /\ (match_type m = "receivable"%string \/ match_type m = "payable"%string)
  /\ Config.auto_match_threshold settings <= num_value (confidence_score m)
  /\ Config.similarity_threshold settings <= num_value (confidence_score m)
  /\ exists candidate,
       In candidate (if Qltb 0 (txn_amount transaction) then invoices_ar else invoices_ap)
       /\ invoice_id m = cand_id candidate.
Proof.
  unfold match_transaction. cbn [num_value].
  set (routed := if Qltb 0 (txn_amount transaction) then invoices_ar else invoices_ap).
  assert (E : (let '(candidates, _) :=
                 if Qltb 0 (txn_amount transaction)
                 then (invoices_ar, "receivable"%string)
                 else (invoices_ap, "payable"%string) in candidates) = routed).
  { unfold routed. now destruct (Qltb 0 (txn_amount transaction)). }
  assert (T : forall ty,
            ty = (let '(_, ty) :=
                    if Qltb 0 (txn_amount transaction)
                    then (invoices_ar, "receivable"%string)
                    else (invoices_ap, "payable"%string) in ty) ->
            ty = "receivable"%string \/ ty = "payable"%string).
  { intros ty ->. destruct (Qltb 0 (txn_amount transaction)); auto. }
  destruct (Qltb 0 (txn_amount transaction));
    (destruct (find_best_match lib (fuzzy_matcher settings) transaction _) as [b|] eqn:Eb;
       [|discriminate]);
    (destruct (py_geb _ _) eqn:Ege; [|discriminate]);
    intro H; injection H as <-; cbn;
    unfold py_geb, py_leb in Ege; cbn [num_value] in Ege; apply Qle_bool_iff in Ege;
    destruct (find_best_match_sound lib (fuzzy_matcher settings) transaction _ Eb)
      as [Hin Hfloor];
    repeat split; auto; exists (invoice b); split; trivial.
Qed.

(** X20.  Every match of the result of a batch belongs to a transaction of
    the batch: it carries its id and the absolute value of its amount, a
    confidence that reaches the auto-match threshold and the similarity
    floor, the type "receivable" or "payable", no [matched_by], and the id of
    a candidate of the list its amount routes it to. *)
Theorem recorded_matches_are_sound (transactions : list Transaction)
  (invoices_ar invoices_ap : list Candidate) (m : TransactionMatch) :
  In m (_perform_automatic_matching settings lib collab
          transactions invoices_ar invoices_ap) ->
  exists transaction,
    In transaction transactions
    /\ transaction_id m = txn_id transaction
    /\ matched_amount m = Qabs (txn_amount transaction)
    /\ 0 <= matched_amount m
    /\ matched_by m = None
    /\ (match_type m = "receivable"%string \/ match_type m = "payable"%string)
    /\ Config.auto_match_threshold settings <= num_value (confidence_score m)
    /\ Config.similarity_threshold settings <= num_value (confidence_score m)
    /\ exists candidate,
         In candidate
            (if Qltb 0 (txn_amount transaction) then invoices_ar else invoices_ap)
         /\ invoice_id m = cand_id candidate.
Proof.
  rewrite matching_is_flat_map. intro Hin.
  apply in_flat_map in Hin as (transaction & Ht & Hm). unfold outcome in Hm.
  destruct (match_transaction settings lib collab transaction invoices_ar invoices_ap)
    as [m'|] eqn:E; [|destruct Hm].
  destruct Hm as [<-|[]].
  destruct (match_transaction_record _ _ _ E) as (H1 & H2 & H3 & H4 & H5 & H6 & H7).
  exists transaction. repeat split; trivial.
  rewrite H2. apply Qabs_nonneg.
Qed.

Lemma matched_ids_come_from_batch (transactions : list Transaction)
  (invoices_ar invoices_ap : list Candidate) (id : TxnId) :
  In id (map transaction_id
           (flat_map (outcome invoices_ar invoices_ap) transactions)) ->
  In id (map txn_id transactions).
Proof.
  intro H. apply in_map_iff in H as (m & <- & Hm).
  apply in_flat_map in Hm as (t & Ht & Hm). unfold outcome in Hm.
  destruct (match_transaction settings lib collab t invoices_ar invoices_ap)
    as [m'|] eqn:E; [|destruct Hm].
  destruct Hm as [<-|[]].
  destruct (match_transaction_record _ _ _ E) as (-> & _).
  apply in_map, Ht.
Qed.

Lemma matching_length (transactions : list Transaction)
  (invoices_ar invoices_ap : list Candidate) :
  (List.length (flat_map (outcome invoices_ar invoices_ap) transactions)
   <= List.length transactions)%nat.
Proof.
  induction transactions as [|t r IH]; cbn [flat_map List.length]; [lia|].
  rewrite length_app. unfold outcome at 1.
  destruct (match_transaction _ _ _ t _ _); cbn [List.length]; lia.
Qed.

(** X21.  A batch gets at most one match per transaction: there are no
    more matches than transactions, and when the ids of the transactions are
    pairwise distinct so are the transaction ids of the matches. *)
Theorem at_most_one_match_per_transaction (transactions : list Transaction)
  (invoices_ar invoices_ap : list Candidate) :
  (List.length (_perform_automatic_matching settings lib collab
                  transactions invoices_ar invoices_ap)
   <= List.length transactions)%nat
  /\ (NoDup (map txn_id transactions) ->
      NoDup (map transaction_id
               (_perform_automatic_matching settings lib collab
                  transactions invoices_ar invoices_ap))).
Proof.
  rewrite matching_is_flat_map. split; [apply matching_length|].
  induction transactions as [|t r IH]; cbn [flat_map map]; intro Hnd; [constructor|].
    inversion Hnd as [|x l Hnotin Hrest]; subst.
    rewrite map_app. unfold outcome at 1.
    destruct (match_transaction settings lib collab t invoices_ar invoices_ap)
      as [m|] eqn:E; cbn [map app]; [|now apply IH].
    destruct (match_transaction_record _ _ _ E) as (Hid & _).
    constructor; [|now apply IH].
    rewrite Hid. intro Hin. apply Hnotin.
    now apply (matched_ids_come_from_batch r invoices_ar invoices_ap).
Qed.

Lemma filter_types_partition (matches : list TransactionMatch) :
  (forall m, In m matches ->
     match_type m = "receivable"%string \/ match_type m = "payable"%string) ->
  (List.length (filter (fun m => String.eqb (match_type m) "receivable") matches)
   + List.length (filter (fun m => String.eqb (match_type m) "payable") matches)
   = List.length matches)%nat.
Proof.
  induction matches as [|m r IH]; intro H; cbn [filter List.length]; trivial.
  assert (IH' := IH (fun x Hx => H x (or_intror Hx))).
  destruct (H m (or_introl eq_refl)) as [E|E]; rewrite E; cbn; lia.
Qed.

(** X22.  In the report of a batch matched automatically, the receivable
    and payable match counts add up to the matched count, the matched and
    unmatched counts add up to the number of transactions, the unmatched
    count is not negative and the matching rate lies between 0 and 100. *)
Theorem report_counts_add_up (bank_account_id : string)
  (transactions : list Transaction) (invoices_ar invoices_ap : list Candidate)
  (discrepancies : list Discrepancy) :
  let matches :=
    _perform_automatic_matching settings lib collab transactions invoices_ar invoices_ap in
  let report :=
    _generate_reconciliation_report collab bank_account_id transactions matches
      discrepancies in
  (type_matches (accounts_receivable report) + type_matches (accounts_payable report)
   = matched_count (summary report))%nat
  /\ (Z.of_nat (matched_count (summary report)) + unmatched_count (summary report)
      = Z.of_nat (total_transactions (summary report)))%Z
  /\ (0 <= unmatched_count (summary report))%Z
  /\ 0 <= matching_rate (summary report) <= 100
  /\ discrepancies_total report = List.length discrepancies.
Proof.
  intros matches report.
  assert (Hlen : (List.length matches <= List.length transactions)%nat).
  { unfold matches. rewrite matching_is_flat_map. apply matching_length. }
  assert (Htypes : forall m, In m matches ->
            match_type m = "receivable"%string \/ match_type m = "payable"%string).
  { intros m Hin. unfold matches in Hin. rewrite matching_is_flat_map in Hin.
    apply in_flat_map in Hin as (t & _ & Hm). unfold outcome in Hm.
    destruct (match_transaction settings lib collab t invoices_ar invoices_ap)
      as [m'|] eqn:E; [|destruct Hm].
    destruct Hm as [<-|[]].
    now destruct (match_transaction_record _ _ _ E) as (_ & _ & _ & H & _). }
  unfold report, _generate_reconciliation_report.
  cbn [summary accounts_receivable accounts_payable type_matches matched_count
       unmatched_count total_transactions matching_rate discrepancies_total].
  split; [apply filter_types_partition, Htypes|].
  split; [lia|]. split; [lia|]. split; [|reflexivity].
  destruct (0 <? List.length transactions)%nat eqn:E0;
    [|split; intro E; discriminate E].
  apply Nat.ltb_lt in E0.
  set (a := inject_Z (Z.of_nat (List.length matches))).
  set (b := inject_Z (Z.of_nat (List.length transactions))).
  assert (Ha : 0 <= a).
  { unfold a. change 0 with (inject_Z 0). rewrite <- Zle_Qle. lia. }
  assert (Hab : a <= b).
  { unfold a, b. rewrite <- Zle_Qle. lia. }
  assert (Hb : 0 < b).
  { unfold b. change 0 with (inject_Z 0). rewrite <- Zlt_Qlt. lia. }
  assert (H0 : 0 <= a / b) by (apply Qle_shift_div_l; trivial; lra).
  assert (H1 : a / b <= 1) by (apply Qle_shift_div_r; trivial; lra).
  split; lra.
Qed.

End BatchResult.

Section TotalScore.

Import FuzzyMatcher.
Local Open Scope Q_scope.

Variable lib : TextLib.
Variable self : FuzzyMatcher.t.

(** The dictionary of [_calculate_match_score], written out: the amount
    score is a float, and the total is the weighted sum. *)
Lemma match_score_total (transaction : Transaction) (candidate : Candidate)
  (txn_amount : pynum) (txn_date : Date.date) (txn_desc : string) (sd : ScoreData) :
  _calculate_match_score lib self transaction candidate txn_amount txn_date txn_desc
  = Ok sd ->
  exists a,
    _calculate_amount_score self txn_amount (PyDecimal (get (cand_amount candidate) 0))
    = Ok (PyFloat a)
    /\ amount_score (breakdown sd) = PyFloat a
    /\ num_value (date_score (breakdown sd))
       = _calculate_date_score self txn_date (_parse_candidate_date lib candidate)
    /\ (exists candidate_desc,
          num_value (description_score (breakdown sd))
          = _calculate_description_score lib txn_desc candidate_desc)
    /\ num_value (reference_score (breakdown sd))
       = _calculate_reference_score lib transaction candidate
    /\ num_value (total_score sd)
       = a * 0.40
         + num_value (date_score (breakdown sd)) * 0.25
         + num_value (description_score (breakdown sd)) * 0.25
         + num_value (reference_score (breakdown sd)) * 0.10.
Proof.
  unfold _calculate_match_score. intro H.
  destruct (_calculate_amount_score self txn_amount _) as [[a|a]|e];
    cbv [bind py_mul py_add py_binop] in H; try discriminate H.
  injection H as <-. exists a. cbn [breakdown amount_score date_score description_score
                                    reference_score total_score num_value].
  repeat split; trivial. eexists. reflexivity.
Qed.

End TotalScore.

Section StatementRun.

Import StatementParser ReconciliationEngine.
Local Open Scope string_scope.

Variable settings : Config.Settings.
Variable textlib : FuzzyMatcher.TextLib.
Variable filelib : FileLib.
Variable collab : Collaborators.

(** X23.  [process_bank_statement] never answers with a report.  A parse
    error is answered with its text, a statement without transactions with
    the "no transaction" error, and a run that has assembled its report
    with the [KeyError] of the closing log line. *)
Theorem statement_run_never_returns_report (statement_file : UploadFile)
  (bank_account_id : string) :
  let response :=
    process_bank_statement settings textlib filelib collab statement_file bank_account_id in
  let run :=
    reconcile_statement settings textlib filelib collab statement_file bank_account_id in
  (forall report, response <> ReportResponse report)
  /\ (forall e, parse_statement filelib statement_file = Raise e ->
        response = ErrorResponse (exn_str e) bank_account_id (Some (utcnow collab)))
  /\ (parse_statement filelib statement_file = Ok [] ->
        response
        = ErrorResponse "Nenhuma transação encontrada no extrato" bank_account_id None)
  /\ (forall report, run = Ok (Some report) ->
        response
        = ErrorResponse "'matched_count'" bank_account_id (Some (utcnow collab))).
Proof.
  intros response run. unfold response, process_bank_statement. fold run.
  split; [|split; [|split]].
  - intro report. destruct run as [[r|]|e]; cbn; discriminate.
  - intros e H. unfold run, reconcile_statement. now rewrite H.
  - intro H. unfold run, reconcile_statement. now rewrite H.
  - intros report ->. reflexivity.
Qed.

End StatementRun.

Section UndatedCandidates.

Import FuzzyMatcher ReconciliationEngine.
Local Open Scope Q_scope.

Variable settings : Config.Settings.
Variable lib : TextLib.
Variable collab : Collaborators.
Hypothesis ranges : lib_ranges lib.

(** X24.  A candidate none of whose date fields gives a date gets the
    neutral date score, so its confidence cannot exceed 0.875; with an
    auto-match threshold above that (0.95 in the settings) the engine never
    matches a transaction whose best candidate has no date. *)
Theorem undated_candidate_is_not_matched (transaction : Transaction)
  (invoices_ar invoices_ap : list Candidate) (b : BestMatch) :
  find_best_match lib (fuzzy_matcher settings) transaction
    (if Qltb 0 (txn_amount transaction) then invoices_ar else invoices_ap) = Some b ->
  _parse_candidate_date lib (invoice b) = None ->
  num_value (confidence b) <= 0.875
  /\ (0.875 < Config.auto_match_threshold settings ->
      match_transaction settings lib collab transaction invoices_ar invoices_ap = None).
Proof.
  intros Eb Hdate.
  assert (Hconf : num_value (confidence b) <= 0.875).
  { destruct (find_best_match_scored lib (fuzzy_matcher settings) transaction _ Eb)
      as (sd & Hsd & -> & _).
    destruct (match_score_total _ _ _ _ _ _ _ Hsd)
      as (a & Ea & _ & Hd & (cdesc & Hs) & Hr & ->).
    rewrite Hdate in Hd. rewrite Hd, Hs, Hr.
    pose proof (description_score_in_unit ranges
                  (_normalize_description (txn_description transaction)) cdesc) as [_ Us].
    pose proof (reference_score_in_unit ranges transaction (invoice b)) as [_ Ur].
    cbn [py_abs] in Ea.
    pose proof (amount_score_in_unit _ _ _ Ea) as [_ Ua]. cbn [num_value] in Ua.
    change (_calculate_date_score (fuzzy_matcher settings) (txn_date transaction) None)
      with 0.5.
    lra. }
  split; trivial. intro Hauto.
  unfold match_transaction. cbn [num_value].
  destruct (Qltb 0 (txn_amount transaction)); rewrite Eb;
    unfold py_geb, py_leb; cbn [num_value];
    rewrite Qle_bool_false; trivial; lra.
Qed.

End UndatedCandidates.

Lemma recorded_matches_are_sound_witness :
  exists m transaction,
    In m (ReconciliationEngine._perform_automatic_matching Config.settings
            Fixtures.textlib Fixtures.collaborators
            [Fixtures.pix_transaction; Fixtures.zero_transaction]
            [Fixtures.receivable "ar-1"] [Fixtures.small_invoice "ap-9"])
    /\ In transaction [Fixtures.pix_transaction; Fixtures.zero_transaction]
    /\ transaction_id m = txn_id transaction
    /\ matched_amount m = Qabs (txn_amount transaction).
Proof.
  assert (Hin : In {| transaction_id := IdText "txn-0";
                      invoice_id := "ap-9";
                      confidence_score := PyFloat 0.9800000000000;
                      match_type := "payable";
                      matched_amount := 0;
                      match_reason := "data_exata";
                      matched_at := 0;
                      matched_by := None |}
                   (ReconciliationEngine._perform_automatic_matching Config.settings
                      Fixtures.textlib Fixtures.collaborators
                      [Fixtures.pix_transaction; Fixtures.zero_transaction]
                      [Fixtures.receivable "ar-1"] [Fixtures.small_invoice "ap-9"])).
  { vm_compute. right. left. reflexivity. }
  destruct (recorded_matches_are_sound Config.settings Fixtures.textlib
              Fixtures.collaborators _ _ _ _ Hin)
    as (transaction & Ht & Hid & Hamount & _).
  eexists. exists transaction.
  split; [exact Hin|]. split; [exact Ht|]. split; [exact Hid|exact Hamount].
Defined.

Lemma undated_candidate_is_not_matched_witness :
  exists b,
    FuzzyMatcher.find_best_match Fixtures.textlib Fixtures.matcher Fixtures.pix_transaction
      [Samples.undated_receivable] = Some b
    /\ (num_value (FuzzyMatcher.confidence b) <= 0.875)%Q
    /\ ReconciliationEngine.match_transaction Config.settings Fixtures.textlib
         Fixtures.collaborators Fixtures.pix_transaction
         [Samples.undated_receivable] [] = None.
Proof.
  eexists. split; [vm_compute; reflexivity|].
  match goal with
  | |- (num_value (FuzzyMatcher.confidence ?b) <= _)%Q /\ _ =>
      assert (Eb : FuzzyMatcher.find_best_match Fixtures.textlib
                     (ReconciliationEngine.fuzzy_matcher Config.settings)
                     Fixtures.pix_transaction
                     (if Qltb 0 (txn_amount Fixtures.pix_transaction)
                      then [Samples.undated_receivable] else []) = Some b)
        by (vm_compute; reflexivity);
      assert (Hd : FuzzyMatcher._parse_candidate_date Fixtures.textlib
                     (FuzzyMatcher.invoice b) = None)
        by (vm_compute; reflexivity)
  end.
  destruct (@undated_candidate_is_not_matched Config.settings Fixtures.textlib
              Fixtures.collaborators fixture_ranges
              Fixtures.pix_transaction [Samples.undated_receivable] [] _ Eb Hd)
    as [Hc Hm].
  split; [exact Hc|]. apply Hm. vm_compute. reflexivity.
Defined.

Section AutomaticMatchRequirements.

Import FuzzyMatcher ReconciliationEngine.
Local Open Scope Q_scope.



Variable settings : Config.Settings.
Variable lib : TextLib.
Variable collab : Collaborators.
Hypothesis ranges : lib_ranges lib.


End AutomaticMatchRequirements.

